(** * Firmware build orchestration of http_main.py

    A shallow embedding of the firmware workflow of [http_main.py]
    (the gateway adapter [req_gen_firmware], [req_gen_status],
    [req_download_firmware], the poll loop [get_firmware] and the two
    handlers [post_asr] and [get_asr_status]), followed by the
    properties the specification states about it.

    The Python code talks to the outside through [requests], [os.environ],
    [time.sleep], [loguru] and [open]; the embedding threads a [world]
    through every call and records each such action in a trace. *)

From Stdlib Require Import ZArith QArith String List.
From Stdlib Require Strings.Byte.
From stdpp Require Import gmap strings list pretty.

Local Set Warnings "-register-all".
Local Open Scope string_scope.
Local Open Scope list_scope.
Local Open Scope Z_scope.

(** ** Python values *)

(** A Python [float]: the rational it denotes, an infinity or NaN
    ([json.loads] accepts all three). *)
Inductive pyfloat :=
| FFinite (q : Q)
| FInf (negative : bool)
| FNaN.

(** The values [res.json()] can produce, plus [None] as a return value. *)
Inductive pyval :=
| PNone
| PBool (b : bool)
| PInt (n : Z)
| PFloat (f : pyfloat)
| PStr (s : string)
| PList (l : list pyval)
| PDict (d : gmap string pyval).

(** Uncaught exceptions the workflow can meet. *)
Inductive exn :=
| RequestException        (* requests.get / requests.post did not get a response *)
| JSONDecodeError         (* res.json() on a body that is not JSON *)
| KeyError (k : string)   (* d[k] on a dict without k *)
| TypeError               (* v[k] on a value that is not a dict *)
| OSError.                (* open(save_path, "wb") refused *)

(** [v == n] for an integer literal [n]: numeric comparison on [int],
    [bool] and [float]; every other type is unequal to an [int]. *)
Definition py_eq_int (v : pyval) (n : Z) : bool :=
  match v with
  | PInt m => m =? n
  | PBool b => (if b then 1 else 0) =? n
  | PFloat (FFinite q) => Qeq_bool q (inject_Z n)
  | _ => false
  end.

(** ** The outside world *)

(** What [requests] hands back: the fields of the response object the
    code reads. [json] is [None] when [res.json()] would raise. *)
Record Response := {
  status_code : Z;
  text : string;
  json : option pyval;
  content : list Byte.byte
}.

Inductive request :=
| POST (url : string) (body : pyval)
| GET (url : string).

Inductive reply :=
| Responds (res : Response)
| Unreachable.            (* the call raises instead of returning *)

(** Everything the code takes from its host: the process environment,
    the remote build gateway (its answer to the n-th request sent), the
    rendering [str()] gives to floats, lists and dicts, and which paths
    [open(_, "wb")] accepts. *)
Record platform := {
  environ : gmap string string;
  gateway : nat → request → reply;
  py_repr : pyval → string;
  writable : string → bool
}.

Inductive level := ERROR | SUCCESS.

Inductive event :=
| Slept (secs : Z)
| Sent (rq : request)
| Logged (lvl : level) (msg : string)
| Wrote (path : string) (data : list Byte.byte).

(** [files] is keyed by the path as the code hands it to [open]: paths
    that a file system would resolve to one file are kept apart here. *)
Record world := {
  clock : nat;                            (* requests sent so far *)
  files : gmap string (list Byte.byte);   (* file contents by path *)
  trace : list event                      (* actions so far, oldest first *)
}.

(** ** Computations: state, exceptions and fuel for [while True] *)

Inductive result (A : Type) :=
| Val (a : A)
| Exn (e : exn)
| Spinning.               (* fuel ran out: the loop is still going *)
Arguments Val {A} a.
Arguments Exn {A} e.
Arguments Spinning {A}.

Definition M (A : Type) : Type := world → result A * world.

Definition ret {A} (a : A) : M A := fun w => (Val a, w).

Definition raise {A} (e : exn) : M A := fun w => (Exn e, w).

Definition bind {A B} (m : M A) (k : A → M B) : M B := fun w =>
  match m w with
  | (Val a, w') => k a w'
  | (Exn e, w') => (Exn e, w')
  | (Spinning, w') => (Spinning, w')
  end.

Declare Scope py_scope.
Delimit Scope py_scope with py.
Notation "x <- c1 ;; c2" := (bind c1 (fun x => c2))
  (at level 100, c1 at next level, right associativity) : py_scope.
Notation "c1 ;; c2" := (bind c1 (fun _ => c2))
  (at level 100, right associativity) : py_scope.
Local Open Scope py_scope.

Definition emit (e : event) : M unit := fun w =>
  (Val tt, {| clock := clock w; files := files w; trace := trace w ++ [e] |}).

(** [time.sleep(secs)] *)
Definition sleep (secs : Z) : M unit := emit (Slept secs).

(** [logger.error(msg)], [logger.success(msg)] *)
Definition log (lvl : level) (msg : string) : M unit := emit (Logged lvl msg).

(** [res.json()] *)
Definition res_json (res : Response) : M pyval :=
  match json res with
  | Some v => ret v
  | None => raise JSONDecodeError
  end.

(** [v[k]] with a string key. *)
Definition getitem (v : pyval) (k : string) : M pyval :=
  match v with
  | PDict d =>
      match d !! k with
      | Some x => ret x
      | None => raise (KeyError k)
      end
  | _ => raise TypeError
  end.

(** The [{x}] of an f-string for a value of [os.environ.get]. *)
Definition fmt_env (o : option string) : string :=
  match o with
  | Some s => s
  | None => "None"
  end.

Section Service.

Context (P : platform).

(** [requests.post(url, json=data)] and [requests.get(url)]. *)
Definition send (rq : request) : M Response := fun w =>
  let w' := {| clock := S (clock w); files := files w;
               trace := trace w ++ [Sent rq] |} in
  match gateway P (clock w) rq with
  | Responds res => (Val res, w')
  | Unreachable => (Exn RequestException, w')
  end.

(** [with open(path, "wb") as f: f.write(data)]. [writable] tells
    whether the file can be opened and written; when it cannot,
    [open] raises and the file is as it was. The write itself is taken
    as all or nothing: a failure after [open] has emptied the file is
    not modelled. *)
Definition write_file (path : string) (data : list Byte.byte) : M unit := fun w =>
  if writable P path then
    (Val tt, {| clock := clock w; files := <[path := data]> (files w);
                trace := trace w ++ [Wrote path data] |})
  else (Exn OSError, w).

(** The [{x}] of an f-string, [str(x)]. *)
Definition py_str (v : pyval) : string :=
  match v with
  | PNone => "None"
  | PBool b => if b then "True" else "False"
  | PInt n => pretty n
  | PStr s => s
  | _ => py_repr P v
  end.

Definition server : option string := environ P !! "FIRMWARE_SERVER".
Definition firmware_path_root : option string := environ P !! "FIRMWARE_PATH".

Definition create_url : string := fmt_env server +:+ "/api/v1/asr".

Definition status_url (gen_id : pyval) : string :=
  fmt_env server +:+ "/api/v1/firmware/status?prj_name=" +:+ py_str gen_id.

Definition download_url (gen_id : pyval) : string :=
  fmt_env server +:+ "/api/v1/firmware/download?prj_name=" +:+ py_str gen_id.

Definition save_path (gen_id : pyval) : string :=
  fmt_env firmware_path_root +:+ "/" +:+ py_str gen_id +:+ ".bin".

Definition req_gen_firmware (data : pyval) : M pyval :=
  res <- send (POST create_url data) ;;
  if negb (status_code res =? 200) then
    log ERROR ("生成固件失败: " +:+ text res) ;;
    ret PNone
  else
    req_data <- res_json res ;;
    d <- getitem req_data "data" ;;
    gen_id <- getitem d "id" ;;
    ret gen_id.

Definition req_gen_status (gen_id : pyval) : M pyval :=
  res <- send (GET (status_url gen_id)) ;;
  if negb (status_code res =? 200) then
    log ERROR ("获取固件生成状态失败: " +:+ text res) ;;
    ret PNone
  else
    req_data <- res_json res ;;
    d <- getitem req_data "data" ;;
    getitem d "status".

Definition req_download_firmware (gen_id : pyval) : M (option string) :=
  res <- send (GET (download_url gen_id)) ;;
  if negb (status_code res =? 200) then
    log ERROR ("下载固件失败: " +:+ text res) ;;
    ret None
  else
    write_file (save_path gen_id) (content res) ;;
    ret (Some (save_path gen_id)).

(** The [while True] loop of [get_firmware]; its value is [gen_result]
    at the [break]. One unit of fuel pays for one iteration. *)
Fixpoint wait_loop (fuel : nat) (gen_id : pyval) : M bool :=
  match fuel with
  | O => fun w => (Spinning, w)
  | S fuel' =>
      sleep 5 ;;
      gen_status <- req_gen_status gen_id ;;
      if py_eq_int gen_status 3 then
        log ERROR ("生成固件失败: " +:+ py_str gen_id) ;;
        ret false
      else if py_eq_int gen_status 2 then
        log SUCCESS ("生成固件成功: " +:+ py_str gen_id) ;;
        ret true
      else
        wait_loop fuel' gen_id
  end.

Definition get_firmware (fuel : nat) (gen_id : pyval) : M (option string) :=
  gen_result <- wait_loop fuel gen_id ;;
  if (gen_result : bool) then
    download_path <- req_download_firmware gen_id ;;
    ret download_path
  else ret None.

(** ** The two handlers *)

Record AsrReqData := { wakeKeyword : string }.

(** [data.dict()] *)
Definition AsrReqData_dict (data : AsrReqData) : pyval :=
  PDict {[ "wakeKeyword" := PStr (wakeKeyword data) ]}.

Record ResponseModel := {
  status : Z;
  message : string;
  data : pyval
}.

(** [ResponseModel(data=d)] with the class defaults. *)
Definition ResponseModel_of (d : pyval) : ResponseModel :=
  {| status := 200; message := "success"; data := d |}.

(** A [BackgroundTasks] object holds the calls queued with [add_task];
    the only function ever queued is [get_firmware]. *)
Inductive task := get_firmware_task (gen_id : pyval).

Definition add_task (background_tasks : list task) (t : task) : list task :=
  background_tasks ++ [t].

(** [post_asr] returns its response together with the task object. *)
Definition post_asr (data : AsrReqData) (background_tasks : list task)
  : M (ResponseModel * list task) :=
  gen_id <- req_gen_firmware (AsrReqData_dict data) ;;
  let background_tasks := add_task background_tasks (get_firmware_task gen_id) in
  ret (ResponseModel_of (PDict {[ "id" := gen_id ]}), background_tasks).

Definition get_asr_status (prj_name : string) : M ResponseModel :=
  gen_status <- req_gen_status (PStr prj_name) ;;
  ret (ResponseModel_of gen_status).

(** Running a queued task, as the server does once the response is out. *)
Definition run_task (fuel : nat) (t : task) : M (option string) :=
  match t with
  | get_firmware_task gen_id => get_firmware fuel gen_id
  end.

End Service.

(** ** Reading a trace *)

Definition is_write (e : event) : bool :=
  match e with
  | Wrote _ _ => true
  | _ => false
  end.

Definition is_get (url : string) (e : event) : bool :=
  match e with
  | Sent (GET u) => bool_decide (u = url)
  | _ => false
  end.

(** The network calls and the sleeps, without the log lines and the writes. *)
Definition is_call (e : event) : bool :=
  match e with
  | Slept _ | Sent _ => true
  | _ => false
  end.

Definition count (p : event → bool) (t : list event) : nat :=
  length (List.filter p t).

Definition writes (t : list event) : nat := count is_write t.

Definition calls (t : list event) : list event := List.filter is_call t.

(** The world after [k] more requests and the actions [t]. *)
Definition advance (k : nat) (t : list event) (w : world) : world :=
  {| clock := k + clock w; files := files w; trace := trace w ++ t |}.

(** The world after a successful [open]/[write]. *)
Definition stored (path : string) (bytes : list Byte.byte) (w : world) : world :=
  {| clock := clock w; files := <[path := bytes]> (files w);
     trace := trace w ++ [Wrote path bytes] |}.

(** ** Gateway answers *)

(** The reply is a 200 response whose JSON body carries [v] under
    ["data"]["status"]. *)
Definition serves_status (rp : reply) (v : pyval) : Prop :=
  ∃ res d d', rp = Responds res ∧ status_code res = 200 ∧
    json res = Some (PDict d) ∧ d !! "data" = Some (PDict d') ∧
    d' !! "status" = Some v.

(** The reply is a response the adapter treats as failed. *)
Definition refused (rp : reply) : Prop :=
  ∃ res, rp = Responds res ∧ status_code res ≠ 200.

(** A status the loop keeps waiting on. *)
Definition in_progress (v : pyval) : Prop :=
  py_eq_int v 2 = false ∧ py_eq_int v 3 = false.

(** The JSON document [body] has the expected keys: [body["data"][k]]
    is there, and is [v]. *)
Definition carries (body : pyval) (k : string) (v : pyval) : Prop :=
  ∃ d d', body = PDict d ∧ d !! "data" = Some (PDict d') ∧ d' !! k = Some v.

(** ** Scripted gateways and hosts for concrete runs *)

Definition json_reply (code : Z) (body : pyval) : reply :=
  Responds {| status_code := code; text := ""; json := Some body; content := [] |}.

Definition bytes_reply (code : Z) (bytes : list Byte.byte) : reply :=
  Responds {| status_code := code; text := ""; json := None; content := bytes |}.

Definition status_body (v : pyval) : pyval :=
  PDict {[ "data" := PDict {[ "status" := v ]} ]}.

Definition create_body (v : pyval) : pyval :=
  PDict {[ "data" := PDict {[ "id" := v ]} ]}.

(** The n-th request gets the n-th reply of the script, whatever it asks. *)
Definition scripted (script : list reply) (fallback : reply) : nat → request → reply :=
  fun n _ => default fallback (script !! n).

Definition host (gw : nat → request → reply) : platform :=
  {| environ := {[ "FIRMWARE_SERVER" := "http://gw"; "FIRMWARE_PATH" := "/fw" ]};
     gateway := gw;
     py_repr := fun _ => "";
     writable := fun _ => true |}.

Definition boot : world := {| clock := 0; files := ∅; trace := [] |}.

(** A gateway that answers every request with a bodyless [code]. *)
Definition always (code : Z) : nat → request → reply :=
  scripted [] (json_reply code PNone).

(** A gateway that never answers. *)
Definition down : nat → request → reply := scripted [] Unreachable.

Definition one : list Byte.byte := [Byte.x01].
Definition two : list Byte.byte := [Byte.x02; Byte.x02].

(** The reply that serves status [v]. *)
Definition status_reply (v : pyval) : reply := json_reply 200 (status_body v).

(** Hosts whose gateway refuses everything with a 500, is down, serves
    the statuses 1, 1, 1, 2 and then the firmware, serves 1, 3, serves
    1, 2 and then the firmware, serves the firmware twice with different
    bytes, and answers everything with an empty JSON object under code
    201. *)
Definition refusing : platform := host (always 500).
Definition offline : platform := host down.
Definition serving_1112 : platform :=
  host (scripted (status_reply <$> [PInt 1; PInt 1; PInt 1; PInt 2])
          (bytes_reply 200 one)).
Definition serving_13 : platform :=
  host (scripted (status_reply <$> [PInt 1; PInt 3]) Unreachable).
Definition serving_12 : platform :=
  host (scripted (status_reply <$> [PInt 1; PInt 2]) (bytes_reply 200 one)).
Definition serving_firmware : platform :=
  host (scripted [bytes_reply 200 one] (bytes_reply 200 two)).
Definition created_empty : platform :=
  host (scripted [] (json_reply 201 (PDict ∅))).
Definition ok_empty : platform :=
  host (scripted [] (json_reply 200 (PDict ∅))).

(** Hosts whose gateway answers everything with code 200 and the JSON
    document [[]], resp. [{"data": null}]. *)
Definition ok_list : platform :=
  host (scripted [] (json_reply 200 (PList []))).
Definition ok_null : platform :=
  host (scripted [] (json_reply 200 (PDict {[ "data" := PNone ]}))).

Definition abc123 : pyval := PStr "abc123".

(** ** Polling *)

(** What [n] rounds of sleep-then-ask leave in the trace. *)
Fixpoint polls (n : nat) (url : string) : list event :=
  match n with
  | O => []
  | S n' => Slept 5 :: Sent (GET url) :: polls n' url
  end.

Definition status_calls (P : platform) (gen_id : pyval) (t : list event) : nat :=
  count (is_get (status_url P gen_id)) t.

Definition download_calls (P : platform) (gen_id : pyval) (t : list event) : nat :=
  count (is_get (download_url P gen_id)) t.

(** From world [w] on, the gateway answers the status requests for
    [gen_id] with the values of [script], in order. *)
Definition gateway_serves (P : platform) (gen_id : pyval) (w : world)
    (script : list pyval) : Prop :=
  ∀ k v, script !! k = Some v →
    serves_status (gateway P (k + clock w) (GET (status_url P gen_id))) v.

(** From world [w] on, every status request for [gen_id] is refused. *)
Definition gateway_refuses (P : platform) (gen_id : pyval) (w : world) : Prop :=
  ∀ k, refused (gateway P (k + clock w) (GET (status_url P gen_id))).


(** From world [w] on, every status request for [gen_id] is answered
    with a status the loop waits on. *)
Definition gateway_stalls (P : platform) (gen_id : pyval) (w : world) : Prop :=
  ∀ k, ∃ v,
    serves_status (gateway P (k + clock w) (GET (status_url P gen_id))) v ∧
    in_progress v.

(** ** The log listing *)

(** [v == s] for a string literal [s]. *)
Definition py_eq_str (v : pyval) (s : string) : bool :=
  match v with
  | PStr t => bool_decide (t = s)
  | _ => false
  end.

(** The truth value that [if v] and [v if v else _] test. *)
Definition truthy (v : pyval) : bool :=
  match v with
  | PNone => false
  | PBool b => b
  | PInt n => negb (n =? 0)
  | PFloat (FFinite q) => negb (Qeq_bool q 0)
  | PFloat _ => true
  | PStr s => negb (bool_decide (s = ""))
  | PList l => negb (bool_decide (length l = 0%nat))
  | PDict d => negb (bool_decide (size d = 0%nat))
  end.

(** A log row as [get_logs] reads it: [item[0]], [item[1]], [item[2]]. *)
Definition row : Type := pyval * pyval * pyval.

Section Logs.

(** [json.loads] on a string ([None] when it raises) and
    [aily_ctl.get_logs(perPage)] with [aily_ctl.log_cur_page] set to the
    first argument; [None] stands for a result that is not a list. *)
Context (json_loads : string → option pyval).
Context (aily_get_logs : Z → Z → option (list row)).

(** [json.loads(v)] *)
Definition loads (v : pyval) : M pyval :=
  match v with
  | PStr s =>
      match json_loads s with
      | Some j => ret j
      | None => raise JSONDecodeError
      end
  | _ => raise TypeError
  end.

(** The dict appended for one row. *)
Definition log_entry (item : row) : M pyval :=
  let '(item0, item1, item2) := item in
  let role := if py_eq_str item0 "tool" then PStr "user" else item0 in
  msg <- (if py_eq_str item2 "image" then
            j <- loads item1 ;;
            getitem j "url"
          else ret item1) ;;
  let type := if truthy item2 then item2 else PStr "text" in
  ret (PDict {[ "role" := role; "msg" := msg; "type" := type ]}).

(** [for item in res: data.append({...})] *)
Fixpoint append_entries (res : list row) (data : list pyval) : M (list pyval) :=
  match res with
  | [] => ret data
  | item :: rest =>
      entry <- log_entry item ;;
      append_entries rest (data ++ [entry])
  end.

Definition get_logs (page perPage : Z) : M ResponseModel :=
  let res := aily_get_logs page perPage in
  data <- (match res with
           | Some ((_ :: _) as rows) => append_entries rows []
           | _ => ret []
           end) ;;
  ret (ResponseModel_of
         (PDict {[ "page" := PInt page; "perPage" := PInt perPage;
                   "list" := PList data ]})).

End Logs.

(** What a row's entry must look like, apart from its message. *)
Definition entry_of (item : row) (msg : pyval) : pyval :=
  PDict {[ "role" := (if py_eq_str item.1.1 "tool" then PStr "user" else item.1.1);
           "msg" := msg;
           "type" := (if truthy item.2 then item.2 else PStr "text") ]}.

(** Rows for concrete listings, and a [json.loads] that knows one
    document. *)
Definition text_row (role msg : string) : row := (PStr role, PStr msg, PNone).
Definition image_row (role msg : string) : row := (PStr role, PStr msg, PStr "image").

Definition loads_one (s : string) : option pyval :=
  if bool_decide (s = "{url}") then Some (PDict {[ "url" := PStr "http://img" ]})
  else None.

(** ** The model settings *)

(** The settings [AilyCtl] keeps, one per getter and setter pair. *)
Inductive setting :=
| llm_url | llm_model | llm_key | llm_preprompt | llm_temp
| stt_url | stt_model | stt_key
| tts_url | tts_model | tts_key | tts_role.

Global Instance setting_eq_dec : EqDecision setting.
Proof. solve_decision. Defined.

(** The [aily_ctl] object as the handlers use it: [get_x()], [set_x(v)]
    and [save(mode)], over whatever state it keeps. *)
Record AilyCtl (S : Type) := {
  ctl_get : setting → S → pyval;
  ctl_set : setting → pyval → S → S;
  ctl_save : string → S → S
}.
Arguments ctl_get {S} _ _ _.
Arguments ctl_set {S} _ _ _ _.
Arguments ctl_save {S} _ _ _.

Record ModelDataUpdate := {
  llmURL : option string;
  llmModel : option string;
  llmKey : option string;
  llmPrePrompt : option string;
  llmTemp : option string;
  sttURL : option string;
  sttModel : option string;
  sttKey : option string;
  ttsURL : option string;
  ttsModel : option string;
  ttsKey : option string;
  ttsRole : option string
}.

(** An [Optional[str]] as a Python value. *)
Definition of_optional (o : option string) : pyval :=
  match o with
  | Some s => PStr s
  | None => PNone
  end.

(** The body [get_model_data] answers for the twelve values. *)
Definition model_data_dict (v : setting → pyval) : pyval :=
  PDict {[ "llmURL" := v llm_url; "llmModel" := v llm_model;
           "llmKey" := v llm_key; "llmPrePrompt" := v llm_preprompt;
           "llmTemp" := v llm_temp;
           "sttURL" := v stt_url; "sttModel" := v stt_model;
           "sttKey" := v stt_key;
           "ttsURL" := v tts_url; "ttsModel" := v tts_model;
           "ttsKey" := v tts_key; "ttsRole" := v tts_role ]}.

(** The value a [ModelDataUpdate] carries for a setting. *)
Definition update_value (data : ModelDataUpdate) (f : setting) : pyval :=
  of_optional
    match f with
    | llm_url => llmURL data | llm_model => llmModel data
    | llm_key => llmKey data | llm_preprompt => llmPrePrompt data
    | llm_temp => llmTemp data
    | stt_url => sttURL data | stt_model => sttModel data
    | stt_key => sttKey data
    | tts_url => ttsURL data | tts_model => ttsModel data
    | tts_key => ttsKey data | tts_role => ttsRole data
    end.

Section ModelData.

Context {S : Type} (aily_ctl : AilyCtl S).

Definition get_model_data (s : S) : ResponseModel :=
  ResponseModel_of
    (PDict {[ "llmURL" := ctl_get aily_ctl llm_url s;
              "llmModel" := ctl_get aily_ctl llm_model s;
              "llmKey" := ctl_get aily_ctl llm_key s;
              "llmPrePrompt" := ctl_get aily_ctl llm_preprompt s;
              "llmTemp" := ctl_get aily_ctl llm_temp s;
              "sttURL" := ctl_get aily_ctl stt_url s;
              "sttModel" := ctl_get aily_ctl stt_model s;
              "sttKey" := ctl_get aily_ctl stt_key s;
              "ttsURL" := ctl_get aily_ctl tts_url s;
              "ttsModel" := ctl_get aily_ctl tts_model s;
              "ttsKey" := ctl_get aily_ctl tts_key s;
              "ttsRole" := ctl_get aily_ctl tts_role s ]}).

Definition set_model_data (data : ModelDataUpdate) (s : S) : ResponseModel * S :=
  let s := ctl_set aily_ctl llm_url (of_optional (llmURL data)) s in
  let s := ctl_set aily_ctl llm_model (of_optional (llmModel data)) s in
  let s := ctl_set aily_ctl llm_key (of_optional (llmKey data)) s in
  let s := ctl_set aily_ctl llm_preprompt (of_optional (llmPrePrompt data)) s in
  let s := ctl_set aily_ctl llm_temp (of_optional (llmTemp data)) s in
  let s := ctl_set aily_ctl stt_url (of_optional (sttURL data)) s in
  let s := ctl_set aily_ctl stt_model (of_optional (sttModel data)) s in
  let s := ctl_set aily_ctl stt_key (of_optional (sttKey data)) s in
  let s := ctl_set aily_ctl tts_url (of_optional (ttsURL data)) s in
  let s := ctl_set aily_ctl tts_model (of_optional (ttsModel data)) s in
  let s := ctl_set aily_ctl tts_key (of_optional (ttsKey data)) s in
  let s := ctl_set aily_ctl tts_role (of_optional (ttsRole data)) s in
  let s := ctl_save aily_ctl "reload" s in
  (ResponseModel_of PNone, s).

End ModelData.

(** A controller that keeps the twelve values in a table, and a store
    with nothing set. *)
Definition table_ctl : AilyCtl (setting → pyval) :=
  {| ctl_get := fun f s => s f;
     ctl_set := fun f v s => fun g => if decide (g = f) then v else s g;
     ctl_save := fun _ s => s |}.

Definition unset : setting → pyval := fun _ => PNone.

Definition sample_update : ModelDataUpdate :=
  {| llmURL := Some "http://llm"; llmModel := Some "m"; llmKey := None;
     llmPrePrompt := Some ""; llmTemp := Some "0.5";
     sttURL := Some ""; sttModel := Some ""; sttKey := Some "k";
     ttsURL := Some ""; ttsModel := Some ""; ttsKey := Some "";
     ttsRole := Some "r" |}.

(** ** Reading the handlers' answers *)

(** The body [get_logs] answers: the page asked for and its entries. *)
Definition logs_page (page perPage : Z) (entries : list pyval) : pyval :=
  PDict {[ "page" := PInt page; "perPage" := PInt perPage;
           "list" := PList entries ]}.

(** Entry [e] shows row [item]: role and type as [entry_of] has them,
    and as message the row's own, or for an image row the ["url"] member
    of the document the row's message holds. *)
Definition shows (json_loads : string → option pyval) (item : row) (e : pyval) : Prop :=
  ∃ msg, e = entry_of item msg ∧
    if py_eq_str item.2 "image" then
      ∃ s d, item.1.2 = PStr s ∧ json_loads s = Some (PDict d) ∧
             d !! "url" = Some msg
    else msg = item.1.2.

(** An entry with a role other than "tool" and a type that is not empty. *)
Definition well_labelled (e : pyval) : Prop :=
  ∃ d role ty, e = PDict d ∧
    d !! "role" = Some role ∧ py_eq_str role "tool" = false ∧
    d !! "type" = Some ty ∧ truthy ty = true.

(** Listings for concrete runs: a text row and an image row; text rows
    only; a text row and an image row whose message is no document. *)
Definition mixed_logs : Z → Z → option (list row) :=
  fun _ _ => Some [text_row "tool" "hi"; image_row "assistant" "{url}"].
Definition text_logs : Z → Z → option (list row) :=
  fun _ _ => Some [text_row "tool" "hi"; text_row "assistant" "yo"].
Definition broken_logs : Z → Z → option (list row) :=
  fun _ _ => Some [text_row "tool" "hi"; image_row "assistant" "oops"].

(** More hosts: the same host with no path open for writing; gateways
    that serve the string "2" as status for ever, serve status 2 and then
    refuse, serve status 2 and then go down, answer 200 with a body that
    is not JSON, and take a job from its creation to its firmware. *)
Definition read_only (P : platform) : platform :=
  {| environ := environ P; gateway := gateway P; py_repr := py_repr P;
     writable := fun _ => false |}.
Definition stalling : platform := host (scripted [] (status_reply (PStr "2"))).
Definition serving_2_refused : platform :=
  host (scripted [status_reply (PInt 2)] (json_reply 500 PNone)).
Definition serving_2_down : platform :=
  host (scripted [status_reply (PInt 2)] Unreachable).
Definition ok_text : platform := host (scripted [] (bytes_reply 200 [])).

(** * Properties *)

(** ** Traces and worlds *)

Lemma count_app p (t1 t2 : list event) : count p (t1 ++ t2) = (count p t1 + count p t2)%nat.
Proof. unfold count. by rewrite List.filter_app, length_app. Qed.

Lemma writes_app (t1 t2 : list event) : writes (t1 ++ t2) = (writes t1 + writes t2)%nat.
Proof. apply count_app. Qed.

Lemma calls_app (t1 t2 : list event) : calls (t1 ++ t2) = calls t1 ++ calls t2.
Proof. apply List.filter_app. Qed.

Lemma advance_advance k1 t1 k2 t2 w :
  advance k2 t2 (advance k1 t1 w) = advance (k1 + k2) (t1 ++ t2) w.
Proof.
  unfold advance; simpl. f_equal; [lia | by rewrite app_assoc].
Qed.

Lemma advance_nil w : advance 0 [] w = w.
Proof. destruct w as [c f t]. unfold advance; simpl. by rewrite app_nil_r. Qed.

(** ** URLs *)

Lemma append_inj_r (p s1 s2 : string) : p +:+ s1 = p +:+ s2 → s1 = s2.
Proof. induction p as [|a p IH]; simpl; [done | intros [= H]; auto]. Qed.

(** ** Comparing a status with 2 and 3 *)

Lemma py_eq_int_2_not_3 v : py_eq_int v 2 = true → py_eq_int v 3 = false.
Proof.
  destruct v as [|[]|n|[q| |]|s|l|d]; simpl; try done.
  - intros ->%Z.eqb_eq. done.
  - intros H2%Qeq_bool_iff. apply not_true_is_false. intros H3%Qeq_bool_iff.
    rewrite H2 in H3. discriminate H3.
Qed.

Lemma py_eq_int_PInt n k : py_eq_int (PInt n) k = true ↔ n = k.
Proof. simpl. apply Z.eqb_eq. Qed.

Lemma in_progress_PInt n : n ≠ 2 → n ≠ 3 → in_progress (PInt n).
Proof. intros H2 H3. split; simpl; by apply Z.eqb_neq. Qed.

Lemma polls_snoc n url :
  polls n url ++ [Slept 5; Sent (GET url)] = polls (S n) url.
Proof. induction n as [|n IH]; simpl; [done | by rewrite IH]. Qed.

Lemma calls_polls n url : calls (polls n url) = polls n url.
Proof. induction n as [|n IH]; simpl; [done | by rewrite IH]. Qed.

Lemma count_calls p t : (∀ e, p e = true → is_call e = true) → count p (calls t) = count p t.
Proof.
  intros Hp. unfold count, calls.
  induction t as [|e t IH]; simpl; [done |].
  destruct (is_call e) eqn:Hc; simpl.
  - destruct (p e); simpl; by rewrite IH.
  - destruct (p e) eqn:He; [apply Hp in He; congruence | done].
Qed.

Lemma is_get_is_call url e : is_get url e = true → is_call e = true.
Proof. by destruct e. Qed.

Lemma count_polls_same n url : count (is_get url) (polls n url) = n.
Proof.
  unfold count. induction n as [|n IH]; simpl; [done |].
  rewrite bool_decide_eq_true_2 by done. simpl. by rewrite IH.
Qed.

Lemma count_polls_other n url url' : url ≠ url' → count (is_get url') (polls n url) = 0%nat.
Proof.
  intros Hne. unfold count. induction n as [|n IH]; simpl; [done |].
  by rewrite bool_decide_eq_false_2.
Qed.

Lemma writes_polls n url : writes (polls n url) = 0%nat.
Proof. unfold writes, count. induction n as [|n IH]; simpl; done. Qed.

Section Facts.

Context (P : platform).

Implicit Types (w : world) (gen_id : pyval) (fuel : nat).

(** A status URL is never a download URL, whatever the two ids. *)
Lemma status_url_not_download gen_id gen_id' :
  status_url P gen_id ≠ download_url P gen_id'.
Proof.
  unfold status_url, download_url. intros H.
  apply append_inj_r in H. simpl in H. discriminate H.
Qed.

(** ** The adapter, reply by reply *)

Lemma req_gen_status_served gen_id w v :
  serves_status (gateway P (clock w) (GET (status_url P gen_id))) v →
  req_gen_status P gen_id w
  = (Val v, advance 1 [Sent (GET (status_url P gen_id))] w).
Proof.
  intros (res & d & d' & Hrp & Hcode & Hjson & Hd & Hd').
  unfold req_gen_status, bind, send, res_json, getitem. rewrite Hrp, Hcode. simpl.
  rewrite Hjson. simpl. rewrite Hd. simpl. by rewrite Hd'.
Qed.

Lemma req_gen_status_refused gen_id w res :
  gateway P (clock w) (GET (status_url P gen_id)) = Responds res →
  status_code res ≠ 200 →
  req_gen_status P gen_id w
  = (Val PNone,
     advance 1 [Sent (GET (status_url P gen_id));
                Logged ERROR ("获取固件生成状态失败: " +:+ text res)] w).
Proof.
  intros Hrp Hcode. apply Z.eqb_neq in Hcode.
  unfold req_gen_status, bind, send. rewrite Hrp, Hcode. simpl.
  unfold advance; simpl. by rewrite <- app_assoc.
Qed.

Lemma req_gen_status_unreachable gen_id w :
  gateway P (clock w) (GET (status_url P gen_id)) = Unreachable →
  req_gen_status P gen_id w
  = (Exn RequestException, advance 1 [Sent (GET (status_url P gen_id))] w).
Proof.
  intros Hrp. unfold req_gen_status, bind, send. by rewrite Hrp.
Qed.

(** What one status call leaves behind, whatever the gateway answers. *)
Lemma req_gen_status_frame gen_id w r w' :
  req_gen_status P gen_id w = (r, w') →
  r ≠ Spinning ∧ files w' = files w ∧ clock w' = S (clock w) ∧
  ∃ t, trace w' = trace w ++ t ∧
       calls t = [Sent (GET (status_url P gen_id))] ∧ writes t = 0%nat.
Proof.
  unfold req_gen_status, bind, send, log, emit, res_json, getitem, ret, raise.
  intros H. repeat case_match; simplify_eq/=; repeat split; try done;
    rewrite <- ?app_assoc; by eexists.
Qed.

(** ** One iteration of the loop *)

Lemma wait_loop_S fuel gen_id w :
  wait_loop P (S fuel) gen_id w =
  match req_gen_status P gen_id (advance 0 [Slept 5] w) with
  | (Val v, w1) =>
      if py_eq_int v 3 then
        (Val false, advance 0 [Logged ERROR ("生成固件失败: " +:+ py_str P gen_id)] w1)
      else if py_eq_int v 2 then
        (Val true, advance 0 [Logged SUCCESS ("生成固件成功: " +:+ py_str P gen_id)] w1)
      else wait_loop P fuel gen_id w1
  | (Exn e, w1) => (Exn e, w1)
  | (Spinning, w1) => (Spinning, w1)
  end.
Proof.
  simpl. unfold bind at 1 2. unfold sleep, emit at 1. simpl.
  change {| clock := clock w; files := files w; trace := trace w ++ [Slept 5] |}
    with (advance 0 [Slept 5] w).
  destruct (req_gen_status P gen_id (advance 0 [Slept 5] w)) as [[v|e|] w1];
    [|done..].
  by repeat case_match.
Qed.

Lemma wait_loop_waiting fuel gen_id w v :
  serves_status (gateway P (clock w) (GET (status_url P gen_id))) v →
  in_progress v →
  wait_loop P (S fuel) gen_id w
  = wait_loop P fuel gen_id (advance 1 (polls 1 (status_url P gen_id)) w).
Proof.
  intros Hv [H2 H3]. rewrite wait_loop_S, (req_gen_status_served _ _ v) by done.
  by rewrite H3, H2, advance_advance.
Qed.

Lemma wait_loop_succeeded fuel gen_id w v :
  serves_status (gateway P (clock w) (GET (status_url P gen_id))) v →
  py_eq_int v 2 = true →
  wait_loop P (S fuel) gen_id w
  = (Val true,
     advance 1 (polls 1 (status_url P gen_id) ++
                [Logged SUCCESS ("生成固件成功: " +:+ py_str P gen_id)]) w).
Proof.
  intros Hv H2. rewrite wait_loop_S, (req_gen_status_served _ _ v) by done.
  by rewrite (py_eq_int_2_not_3 _ H2), H2, !advance_advance.
Qed.

Lemma wait_loop_failed fuel gen_id w v :
  serves_status (gateway P (clock w) (GET (status_url P gen_id))) v →
  py_eq_int v 3 = true →
  wait_loop P (S fuel) gen_id w
  = (Val false,
     advance 1 (polls 1 (status_url P gen_id) ++
                [Logged ERROR ("生成固件失败: " +:+ py_str P gen_id)]) w).
Proof.
  intros Hv H3. rewrite wait_loop_S, (req_gen_status_served _ _ v) by done.
  by rewrite H3, !advance_advance.
Qed.

Lemma wait_loop_refused fuel gen_id w res :
  gateway P (clock w) (GET (status_url P gen_id)) = Responds res →
  status_code res ≠ 200 →
  wait_loop P (S fuel) gen_id w
  = wait_loop P fuel gen_id
      (advance 1 (polls 1 (status_url P gen_id) ++
                  [Logged ERROR ("获取固件生成状态失败: " +:+ text res)]) w).
Proof.
  intros Hrp Hcode. rewrite wait_loop_S.
  rewrite (req_gen_status_refused _ _ res) by done.
  simpl py_eq_int. cbv iota. by rewrite advance_advance.
Qed.

Lemma wait_loop_unreachable fuel gen_id w :
  gateway P (clock w) (GET (status_url P gen_id)) = Unreachable →
  wait_loop P (S fuel) gen_id w
  = (Exn RequestException, advance 1 (polls 1 (status_url P gen_id)) w).
Proof.
  intros Hrp. rewrite wait_loop_S, req_gen_status_unreachable by done.
  by rewrite advance_advance.
Qed.

(** ** A scripted run of the loop *)

Lemma gateway_serves_tail gen_id w v script :
  gateway_serves P gen_id w (v :: script) →
  serves_status (gateway P (clock w) (GET (status_url P gen_id))) v ∧
  gateway_serves P gen_id (advance 1 (polls 1 (status_url P gen_id)) w) script.
Proof.
  intros H. split; [apply (H 0%nat); done |].
  intros k x Hk. simpl. replace (k + S (clock w))%nat with (S k + clock w)%nat by lia.
  by apply H.
Qed.

Lemma wait_loop_script script : ∀ w fuel gen_id,
  Forall in_progress script →
  gateway_serves P gen_id w script →
  wait_loop P (length script + fuel) gen_id w
  = wait_loop P fuel gen_id
      (advance (length script) (polls (length script) (status_url P gen_id)) w).
Proof.
  induction script as [|v script IH]; intros w fuel gen_id Hprog Hgw;
    cbn [length Nat.add].
  - by rewrite advance_nil.
  - apply Forall_cons in Hprog as [Hv Hprog].
    apply gateway_serves_tail in Hgw as [Hv' Hgw].
    rewrite (wait_loop_waiting _ _ _ v) by done.
    rewrite IH by done. by rewrite advance_advance.
Qed.

(** ** Download and save *)

Lemma req_download_firmware_saved gen_id w res :
  gateway P (clock w) (GET (download_url P gen_id)) = Responds res →
  status_code res = 200 →
  writable P (save_path P gen_id) = true →
  req_download_firmware P gen_id w
  = (Val (Some (save_path P gen_id)),
     stored (save_path P gen_id) (content res)
       (advance 1 [Sent (GET (download_url P gen_id))] w)).
Proof.
  intros Hrp Hcode Hopen.
  unfold req_download_firmware, bind, send, write_file. rewrite Hrp, Hcode. simpl.
  by rewrite Hopen.
Qed.

Lemma req_download_firmware_refused gen_id w res :
  gateway P (clock w) (GET (download_url P gen_id)) = Responds res →
  status_code res ≠ 200 →
  req_download_firmware P gen_id w
  = (Val None,
     advance 1 [Sent (GET (download_url P gen_id));
                Logged ERROR ("下载固件失败: " +:+ text res)] w).
Proof.
  intros Hrp Hcode. apply Z.eqb_neq in Hcode.
  unfold req_download_firmware, bind, send. rewrite Hrp, Hcode. simpl.
  unfold advance; simpl. by rewrite <- app_assoc.
Qed.

Lemma req_download_firmware_frame gen_id w r w' :
  req_download_firmware P gen_id w = (r, w') →
  r ≠ Spinning ∧
  ∃ t, trace w' = trace w ++ t ∧
       calls t = [Sent (GET (download_url P gen_id))] ∧ (writes t ≤ 1)%nat.
Proof.
  unfold req_download_firmware, bind, send, log, emit, write_file, ret.
  intros H. repeat case_match; simplify_eq/=; (split; [done |]);
    rewrite <- ?app_assoc; eexists; (split; [done |]); split; by auto.
Qed.

(** ** What the loop leaves behind *)

Lemma download_calls_of_polls gen_id gen_id' n t :
  calls t = polls n (status_url P gen_id) →
  download_calls P gen_id' t = 0%nat.
Proof.
  intros Hc. unfold download_calls.
  rewrite <- count_calls by apply is_get_is_call. rewrite Hc.
  apply count_polls_other, status_url_not_download.
Qed.

Lemma wait_loop_frame fuel gen_id : ∀ w r w',
  wait_loop P fuel gen_id w = (r, w') →
  files w' = files w ∧
  ∃ t, trace w' = trace w ++ t ∧ writes t = 0%nat ∧
       ∀ gen_id', download_calls P gen_id' t = 0%nat.
Proof.
  induction fuel as [|fuel IH]; intros w r w' H.
  - simpl in H. simplify_eq. split; [done |]. exists []. by rewrite app_nil_r.
  - rewrite wait_loop_S in H.
    destruct (req_gen_status P gen_id (advance 0 [Slept 5] w)) as [r1 w1] eqn:Hst.
    apply req_gen_status_frame in Hst as (_ & Hf1 & _ & t1 & Ht1 & Hc1 & Hw1).
    simpl in Hf1, Ht1. rewrite <- app_assoc in Ht1.
    assert (Hd1 : ∀ gen_id', download_calls P gen_id' (Slept 5 :: t1) = 0%nat).
    { intros g'. apply (download_calls_of_polls gen_id _ 1). simpl. by rewrite Hc1. }
    assert (Hw1' : writes (Slept 5 :: t1) = 0%nat) by done.
    destruct r1 as [v|e|].
    + destruct (py_eq_int v 3); [|destruct (py_eq_int v 2)].
      * simplify_eq/=. split; [done |].
        exists ((Slept 5 :: t1) ++ [Logged ERROR ("生成固件失败: " +:+ py_str P gen_id)]).
        rewrite Ht1, <- app_assoc. split; [done |].
        split; [by rewrite writes_app, Hw1' |].
        intros g'. unfold download_calls in *. by rewrite count_app, Hd1.
      * simplify_eq/=. split; [done |].
        exists ((Slept 5 :: t1) ++ [Logged SUCCESS ("生成固件成功: " +:+ py_str P gen_id)]).
        rewrite Ht1, <- app_assoc. split; [done |].
        split; [by rewrite writes_app, Hw1' |].
        intros g'. unfold download_calls in *. by rewrite count_app, Hd1.
      * apply IH in H as (Hf & t & Ht & Hw & Hd). split; [congruence |].
        exists ((Slept 5 :: t1) ++ t). rewrite Ht, Ht1, <- app_assoc.
        split; [done |]. split; [by rewrite writes_app, Hw1', Hw |].
        intros g'. unfold download_calls in *. by rewrite count_app, Hd1, Hd.
    + simplify_eq. split; [done |]. by exists (Slept 5 :: t1).
    + simplify_eq. split; [done |]. by exists (Slept 5 :: t1).
Qed.

(** ** The whole task *)

Lemma bind_ret {A} (m : M A) w : bind m ret w = m w.
Proof. unfold bind, ret. by destruct (m w) as [[a|e|] w']. Qed.

Lemma get_firmware_after_loop fuel gen_id w :
  get_firmware P fuel gen_id w =
  match wait_loop P fuel gen_id w with
  | (Val true, w1) => req_download_firmware P gen_id w1
  | (Val false, w1) => (Val None, w1)
  | (Exn e, w1) => (Exn e, w1)
  | (Spinning, w1) => (Spinning, w1)
  end.
Proof.
  unfold get_firmware. unfold bind at 1.
  destruct (wait_loop P fuel gen_id w) as [[[]|e|] w1]; try done.
  apply bind_ret.
Qed.

Lemma gateway_serves_app gen_id w script1 script2 t :
  gateway_serves P gen_id w (script1 ++ script2) →
  gateway_serves P gen_id w script1 ∧
  gateway_serves P gen_id (advance (length script1) t w) script2.
Proof.
  intros H. split; intros k x Hk.
  - apply H. by apply lookup_app_l_Some.
  - simpl. replace (k + (length script1 + clock w))%nat
      with ((length script1 + k) + clock w)%nat by lia.
    apply H. by rewrite lookup_app_r, Nat.add_comm, Nat.add_sub by lia.
Qed.

(** [n] statuses to wait on, then one equal to 2: the task goes on to
    the download from a world with [n + 1] polls and the success line. *)
Lemma get_firmware_script_succeeded script v gen_id w fuel :
  Forall in_progress script →
  py_eq_int v 2 = true →
  gateway_serves P gen_id w (script ++ [v]) →
  get_firmware P (length script + S fuel) gen_id w
  = req_download_firmware P gen_id
      (advance (S (length script))
         (polls (S (length script)) (status_url P gen_id) ++
          [Logged SUCCESS ("生成固件成功: " +:+ py_str P gen_id)]) w).
Proof.
  intros Hprog H2 Hgw.
  apply (gateway_serves_app _ _ _ _ (polls (length script) (status_url P gen_id)))
    in Hgw as [Hgw Hlast].
  rewrite get_firmware_after_loop, wait_loop_script by done.
  rewrite (wait_loop_succeeded _ _ _ v); [| by apply (Hlast 0%nat) | done].
  rewrite advance_advance, app_assoc, polls_snoc. by rewrite Nat.add_1_r.
Qed.

(** [n] statuses to wait on, then one equal to 3: the task ends there. *)
Lemma get_firmware_script_failed script v gen_id w fuel :
  Forall in_progress script →
  py_eq_int v 3 = true →
  gateway_serves P gen_id w (script ++ [v]) →
  get_firmware P (length script + S fuel) gen_id w
  = (Val None,
     advance (S (length script))
       (polls (S (length script)) (status_url P gen_id) ++
        [Logged ERROR ("生成固件失败: " +:+ py_str P gen_id)]) w).
Proof.
  intros Hprog H3 Hgw.
  apply (gateway_serves_app _ _ _ _ (polls (length script) (status_url P gen_id)))
    in Hgw as [Hgw Hlast].
  rewrite get_firmware_after_loop, wait_loop_script by done.
  rewrite (wait_loop_failed _ _ _ v); [| by apply (Hlast 0%nat) | done].
  rewrite advance_advance, app_assoc, polls_snoc. by rewrite Nat.add_1_r.
Qed.

(** Against a gateway that refuses every status request the loop uses up
    any fuel: [fuel] polls made, nothing downloaded, still waiting. *)
Lemma wait_loop_refuses fuel gen_id : ∀ w,
  gateway_refuses P gen_id w →
  ∃ t, wait_loop P fuel gen_id w = (Spinning, advance fuel t w) ∧
       calls t = polls fuel (status_url P gen_id) ∧ writes t = 0%nat.
Proof.
  induction fuel as [|fuel IH]; intros w Hgw.
  - exists []. by rewrite advance_nil.
  - destruct (Hgw 0%nat) as (res & Hrp & Hcode). simpl in Hrp.
    rewrite (wait_loop_refused _ _ _ res) by done.
    set (t1 := polls 1 (status_url P gen_id) ++
               [Logged ERROR ("获取固件生成状态失败: " +:+ text res)]).
    destruct (IH (advance 1 t1 w)) as (t & Hloop & Hcalls & Hwrites).
    { intros k. simpl. replace (k + S (clock w))%nat with (S k + clock w)%nat by lia.
      apply Hgw. }
    exists (t1 ++ t). rewrite Hloop, advance_advance.
    split; [done |]. split.
    + rewrite calls_app, Hcalls. done.
    + rewrite writes_app, Hwrites. done.
Qed.

(** ** The trigger *)

Lemma post_asr_refused data background_tasks w res :
  gateway P (clock w) (POST (create_url P) (AsrReqData_dict data)) = Responds res →
  status_code res ≠ 200 →
  post_asr P data background_tasks w
  = (Val (ResponseModel_of (PDict {[ "id" := PNone ]}),
          background_tasks ++ [get_firmware_task PNone]),
     advance 1 [Sent (POST (create_url P) (AsrReqData_dict data));
                Logged ERROR ("生成固件失败: " +:+ text res)] w).
Proof.
  intros Hrp Hcode. apply Z.eqb_neq in Hcode.
  unfold post_asr, req_gen_firmware, bind, send. rewrite Hrp, Hcode. simpl.
  unfold advance, add_task; simpl. by rewrite <- app_assoc.
Qed.

Lemma post_asr_created data background_tasks w res id :
  gateway P (clock w) (POST (create_url P) (AsrReqData_dict data)) = Responds res →
  status_code res = 200 →
  json res = Some (create_body id) →
  post_asr P data background_tasks w
  = (Val (ResponseModel_of (PDict {[ "id" := id ]}),
          background_tasks ++ [get_firmware_task id]),
     advance 1 [Sent (POST (create_url P) (AsrReqData_dict data))] w).
Proof.
  intros Hrp Hcode Hjson.
  unfold post_asr, req_gen_firmware, bind, send, res_json. rewrite Hrp, Hcode. simpl.
  rewrite Hjson. unfold create_body, getitem, bind, ret. simpl.
  rewrite lookup_singleton_eq. simpl. by rewrite lookup_singleton_eq.
Qed.

(** ** Claims about the poll loop *)

(** C2: the status seen in an iteration decides what [get_firmware]
    does next. A status equal to 2 makes it log success, run the download
    and return what the download returns (it does not loop again); a
    status equal to 3 makes it return [None] at once, with nothing
    downloaded; any other status makes it go round again, starting with
    the next sleep. *)
Theorem get_firmware_status_dispatch fuel gen_id w v w1 :
  req_gen_status P gen_id (advance 0 [Slept 5] w) = (Val v, w1) →
  (py_eq_int v 2 = true →
     get_firmware P (S fuel) gen_id w
     = req_download_firmware P gen_id
         (advance 0 [Logged SUCCESS ("生成固件成功: " +:+ py_str P gen_id)] w1)
     ∧ (get_firmware P (S fuel) gen_id w).1 ≠ Spinning)
  ∧ (py_eq_int v 3 = true →
     get_firmware P (S fuel) gen_id w
     = (Val None,
        advance 0 [Logged ERROR ("生成固件失败: " +:+ py_str P gen_id)] w1))
  ∧ (in_progress v →
     get_firmware P (S fuel) gen_id w = get_firmware P fuel gen_id w1
     ∧ wait_loop P (S fuel) gen_id w = wait_loop P fuel gen_id w1).
Proof.
  intros Hst.
  rewrite !get_firmware_after_loop, wait_loop_S, Hst.
  split; [|split].
  - intros H2. rewrite (py_eq_int_2_not_3 _ H2), H2. split; [done |].
    destruct (req_download_firmware P gen_id _) as [r w'] eqn:Hd.
    by apply req_download_firmware_frame in Hd as [Hr _].
  - by intros ->.
  - by intros [-> ->].
Qed.

(** C3, as amended: a run of [get_firmware] that ends writes at most
    one file and downloads at most once. When the first status that is
    not waited on is 2 the run makes exactly one download call; it writes
    exactly one file, the job's own with the bytes served, when that
    download is answered with code 200 and the path can be written, and
    it writes none when the download is answered with another code. When
    that status is 3 the run makes no download call, writes nothing and
    returns [None]. *)
Theorem get_firmware_at_most_one_write gen_id w :
  (∀ fuel r w',
     get_firmware P fuel gen_id w = (r, w') → r ≠ Spinning →
     ∃ t, trace w' = trace w ++ t ∧
          (writes t ≤ 1)%nat ∧ (download_calls P gen_id t ≤ 1)%nat)
  ∧ (∀ script v fuel,
     Forall in_progress script →
     gateway_serves P gen_id w (script ++ [v]) →
     (py_eq_int v 2 = true →
        (∃ r w' t,
           get_firmware P (length script + S fuel) gen_id w = (r, w') ∧
           r ≠ Spinning ∧ trace w' = trace w ++ t ∧
           download_calls P gen_id t = 1%nat ∧ (writes t ≤ 1)%nat)
        ∧ (∀ res,
             gateway P (S (length script) + clock w) (GET (download_url P gen_id))
             = Responds res →
             (status_code res = 200 → writable P (save_path P gen_id) = true →
                ∃ w' t,
                  get_firmware P (length script + S fuel) gen_id w
                  = (Val (Some (save_path P gen_id)), w') ∧
                  trace w' = trace w ++ t ∧
                  download_calls P gen_id t = 1%nat ∧ writes t = 1%nat ∧
                  List.filter is_write t
                  = [Wrote (save_path P gen_id) (content res)] ∧
                  files w' = <[save_path P gen_id := content res]> (files w))
             ∧ (status_code res ≠ 200 →
                ∃ w' t,
                  get_firmware P (length script + S fuel) gen_id w = (Val None, w') ∧
                  trace w' = trace w ++ t ∧
                  download_calls P gen_id t = 1%nat ∧ writes t = 0%nat ∧
                  files w' = files w)))
     ∧ (py_eq_int v 3 = true →
        ∃ w' t,
          get_firmware P (length script + S fuel) gen_id w = (Val None, w') ∧
          trace w' = trace w ++ t ∧ files w' = files w ∧
          download_calls P gen_id t = 0%nat ∧ writes t = 0%nat)).
Proof.
  split.
  - intros fuel r w' Hrun Hr. rewrite get_firmware_after_loop in Hrun.
    destruct (wait_loop P fuel gen_id w) as [r0 w0] eqn:Hloop.
    apply wait_loop_frame in Hloop as (_ & t0 & Ht0 & Hw0 & Hd0).
    destruct r0 as [[]|e|]; simplify_eq.
    + apply req_download_firmware_frame in Hrun as (_ & t1 & Ht1 & Hc1 & Hw1).
      exists (t0 ++ t1). rewrite Ht1, Ht0, <- app_assoc. split; [done |].
      split; [rewrite writes_app; lia |].
      unfold download_calls in *. rewrite count_app, Hd0.
      rewrite <- (count_calls _ t1) by apply is_get_is_call. rewrite Hc1.
      unfold count; simpl. case_bool_decide; simpl; lia.
    + exists t0. rewrite Hw0, Hd0. auto with lia.
    + exists t0. rewrite Hw0, Hd0. auto with lia.
  - intros script v fuel Hprog Hgw. split; intros Hv.
    + rewrite (get_firmware_script_succeeded script v) by done.
      set (t0 := polls (S (length script)) (status_url P gen_id) ++ _).
      assert (Hd0 : download_calls P gen_id t0 = 0%nat).
      { unfold download_calls, t0.
        by rewrite count_app, count_polls_other by apply status_url_not_download. }
      assert (Hw0 : writes t0 = 0%nat).
      { unfold t0. by rewrite writes_app, writes_polls. }
      assert (Hd1 : ∀ t1, calls t1 = [Sent (GET (download_url P gen_id))] →
                download_calls P gen_id (t0 ++ t1) = 1%nat).
      { intros t1 Hc1. unfold download_calls in *. rewrite count_app, Hd0.
        rewrite <- (count_calls _ t1) by apply is_get_is_call. rewrite Hc1.
        unfold count; simpl. by rewrite bool_decide_eq_true_2. }
      split; [|intros res Hrp; split].
      * destruct (req_download_firmware P gen_id _) as [r w'] eqn:Hd.
        apply req_download_firmware_frame in Hd as (Hr & t1 & Ht1 & Hc1 & Hw1).
        exists r, w', (t0 ++ t1). split; [done |]. split; [done |].
        split; [by rewrite Ht1; simpl; rewrite <- app_assoc |].
        split; [by apply Hd1 |]. rewrite writes_app, Hw0. lia.
      * intros Hcode Hopen.
        rewrite (req_download_firmware_saved _ _ res) by done.
        eexists _, (t0 ++ [Sent (GET (download_url P gen_id));
                           Wrote (save_path P gen_id) (content res)]).
        split; [done |].
        split; [unfold stored, advance; cbn [trace]; by rewrite <- !app_assoc |].
        split; [by apply Hd1 |].
        split; [by rewrite writes_app, Hw0 |].
        split; [|done].
        rewrite List.filter_app. fold (writes t0) in Hw0.
        apply length_zero_iff_nil in Hw0. by rewrite Hw0.
      * intros Hcode.
        rewrite (req_download_firmware_refused _ _ res) by done.
        eexists _, (t0 ++ [Sent (GET (download_url P gen_id));
                           Logged ERROR ("下载固件失败: " +:+ text res)]).
        split; [done |].
        split; [unfold stored, advance; cbn [trace]; by rewrite <- !app_assoc |].
        split; [by apply Hd1 |].
        split; [by rewrite writes_app, Hw0 | done].
    + rewrite (get_firmware_script_failed script v) by done.
      eexists _, _. split; [done |]. split; [done |]. split; [done |]. split.
      * unfold download_calls.
        rewrite count_app, count_polls_other by apply status_url_not_download. done.
      * by rewrite writes_app, writes_polls.
Qed.

(** C5, as amended: an iteration whose status call is answered with a
    code other than 200 neither ends the loop nor downloads; the loop
    goes round again after the next sleep. Against a gateway that always
    answers so, the loop is still waiting after any number of rounds,
    having made that many status calls, no download call and no write.
    A status call that gets no response at all ends the loop with the
    exception. *)
Theorem get_firmware_refused_status_retries gen_id w :
  (∀ fuel res,
     gateway P (clock w) (GET (status_url P gen_id)) = Responds res →
     status_code res ≠ 200 →
     get_firmware P (S fuel) gen_id w
     = get_firmware P fuel gen_id
         (advance 1 (polls 1 (status_url P gen_id) ++
                     [Logged ERROR ("获取固件生成状态失败: " +:+ text res)]) w))
  ∧ (gateway_refuses P gen_id w →
     ∀ fuel, ∃ t,
       get_firmware P fuel gen_id w = (Spinning, advance fuel t w) ∧
       status_calls P gen_id t = fuel ∧
       download_calls P gen_id t = 0%nat ∧ writes t = 0%nat)
  ∧ (gateway P (clock w) (GET (status_url P gen_id)) = Unreachable →
     ∀ fuel,
       get_firmware P (S fuel) gen_id w
       = (Exn RequestException, advance 1 (polls 1 (status_url P gen_id)) w)).
Proof.
  split; [|split].
  - intros fuel res Hrp Hcode.
    by rewrite !get_firmware_after_loop, (wait_loop_refused _ _ _ res).
  - intros Hgw fuel.
    destruct (wait_loop_refuses fuel gen_id w Hgw) as (t & Hloop & Hcalls & Hwrites).
    exists t. rewrite get_firmware_after_loop, Hloop.
    split; [done |]. split; [|split; [|done]].
    + unfold status_calls. rewrite <- count_calls by apply is_get_is_call.
      rewrite Hcalls. apply count_polls_same.
    + by apply (download_calls_of_polls gen_id _ fuel).
  - intros Hrp fuel.
    by rewrite get_firmware_after_loop, wait_loop_unreachable.
Qed.

(** C6: against a gateway that serves the statuses 1, 1, 1, 2 the task
    ends; its calls are four rounds of a 5 second sleep followed by a
    status call, then one download call: 4 status calls and 1 download
    call in all. *)
Theorem get_firmware_script_1112 gen_id w fuel :
  gateway_serves P gen_id w [PInt 1; PInt 1; PInt 1; PInt 2] →
  ∃ r w' t,
    get_firmware P (4 + fuel) gen_id w = (r, w') ∧ r ≠ Spinning ∧
    trace w' = trace w ++ t ∧
    calls t = [Slept 5; Sent (GET (status_url P gen_id));
               Slept 5; Sent (GET (status_url P gen_id));
               Slept 5; Sent (GET (status_url P gen_id));
               Slept 5; Sent (GET (status_url P gen_id));
               Sent (GET (download_url P gen_id))] ∧
    status_calls P gen_id t = 4%nat ∧ download_calls P gen_id t = 1%nat.
Proof.
  intros Hgw.
  pose proof (get_firmware_script_succeeded [PInt 1; PInt 1; PInt 1] (PInt 2)
                gen_id w fuel) as Hrun.
  cbn [length Nat.add] in Hrun. cbn [Nat.add]. rewrite Hrun; [| |done|done].
  2:{ repeat constructor. }
  set (t0 := polls 4 (status_url P gen_id) ++ _).
  destruct (req_download_firmware P gen_id _) as [r w'] eqn:Hd.
  apply req_download_firmware_frame in Hd as (Hr & t1 & Ht1 & Hc1 & _).
  exists r, w', (t0 ++ t1). split; [done |]. split; [done |].
  split; [by rewrite Ht1; simpl; rewrite <- app_assoc |].
  assert (Hcalls : calls (t0 ++ t1)
                   = polls 4 (status_url P gen_id) ++
                     [Sent (GET (download_url P gen_id))]).
  { rewrite calls_app, Hc1. unfold t0. by rewrite calls_app, calls_polls. }
  split; [by rewrite Hcalls |].
  unfold status_calls, download_calls.
  rewrite <- !(count_calls _ (t0 ++ t1)) by apply is_get_is_call.
  rewrite Hcalls, !count_app, count_polls_same.
  rewrite count_polls_other by apply status_url_not_download.
  unfold count; simpl.
  rewrite (bool_decide_eq_false_2 (download_url P gen_id = status_url P gen_id)).
  2:{ intros Heq. by apply (status_url_not_download gen_id gen_id). }
  by rewrite bool_decide_eq_true_2.
Qed.

(** C7: against a gateway that serves the statuses 1, 3 the task makes
    two status calls and no download call, writes nothing and returns
    [None]. *)
Theorem get_firmware_script_13 gen_id w fuel :
  gateway_serves P gen_id w [PInt 1; PInt 3] →
  ∃ w' t,
    get_firmware P (2 + fuel) gen_id w = (Val None, w') ∧
    trace w' = trace w ++ t ∧ files w' = files w ∧
    calls t = [Slept 5; Sent (GET (status_url P gen_id));
               Slept 5; Sent (GET (status_url P gen_id))] ∧
    status_calls P gen_id t = 2%nat ∧ download_calls P gen_id t = 0%nat ∧
    writes t = 0%nat.
Proof.
  intros Hgw.
  pose proof (get_firmware_script_failed [PInt 1] (PInt 3) gen_id w fuel) as Hrun.
  cbn [length Nat.add] in Hrun. cbn [Nat.add]. rewrite Hrun; [| |done|done].
  2:{ repeat constructor. }
  eexists _, _. split; [done |]. split; [done |]. split; [done |].
  split; [done |].
  unfold status_calls, download_calls, writes, count. simpl.
  rewrite !bool_decide_eq_true_2 by done.
  rewrite !bool_decide_eq_false_2 by apply status_url_not_download. done.
Qed.

(** ** Claims about the adapter and the handlers *)

Lemma get_asr_status_after prj_name w :
  get_asr_status P prj_name w =
  match req_gen_status P (PStr prj_name) w with
  | (Val v, w') => (Val (ResponseModel_of v), w')
  | (Exn e, w') => (Exn e, w')
  | (Spinning, w') => (Spinning, w')
  end.
Proof. reflexivity. Qed.

(** The value of a status call depends on the world through the clock only. *)
Lemma req_gen_status_value gen_id w w0 :
  clock w0 = clock w →
  (req_gen_status P gen_id w0).1 = (req_gen_status P gen_id w).1.
Proof.
  intros Hclock. unfold req_gen_status, bind, send. rewrite Hclock.
  destruct (gateway P (clock w) (GET (status_url P gen_id))) as [res|]; [|done].
  simpl. destruct (status_code res =? 200); [|done]. simpl.
  unfold res_json. destruct (json res) as [v|]; [|done]. simpl.
  destruct v as [| | | | | |d]; try done. simpl.
  destruct (d !! "data") as [v|]; [|done]. simpl.
  destruct v as [| | | | | |d']; try done. simpl.
  by destruct (d' !! "status").
Qed.

(** C4, as amended: [get_asr_status] makes exactly one status call to
    the gateway, and its answer is decided by the gateway's reply alone,
    whatever the files and the trace hold. When the call gets no
    response the exception goes up to the caller; when the gateway
    answers with a code other than 200 the query does not fail: it
    answers the success envelope with [data] set to [None]. *)
Theorem get_asr_status_fresh_query prj_name w :
  (∃ t, trace (get_asr_status P prj_name w).2 = trace w ++ t ∧
        calls t = [Sent (GET (status_url P (PStr prj_name)))])
  ∧ (∀ w0, clock w0 = clock w →
       (get_asr_status P prj_name w0).1 = (get_asr_status P prj_name w).1)
  ∧ (gateway P (clock w) (GET (status_url P (PStr prj_name))) = Unreachable →
       (get_asr_status P prj_name w).1 = Exn RequestException)
  ∧ (∀ res,
       gateway P (clock w) (GET (status_url P (PStr prj_name))) = Responds res →
       status_code res ≠ 200 →
       (get_asr_status P prj_name w).1 = Val (ResponseModel_of PNone))
  ∧ (∀ v,
       serves_status (gateway P (clock w) (GET (status_url P (PStr prj_name)))) v →
       (get_asr_status P prj_name w).1 = Val (ResponseModel_of v)).
Proof.
  split; [|split; [|split; [|split]]].
  - rewrite get_asr_status_after.
    destruct (req_gen_status P (PStr prj_name) w) as [r w'] eqn:Hst.
    apply req_gen_status_frame in Hst as (_ & _ & _ & t & Ht & Hc & _).
    exists t. by destruct r.
  - intros w0 Hclock. rewrite !get_asr_status_after.
    pose proof (req_gen_status_value (PStr prj_name) w w0 Hclock) as Hval.
    destruct (req_gen_status P (PStr prj_name) w0) as [r0 w0'].
    destruct (req_gen_status P (PStr prj_name) w) as [r w'].
    simpl in Hval. subst r0. by destruct r.
  - intros Hrp. by rewrite get_asr_status_after, req_gen_status_unreachable.
  - intros res Hrp Hcode.
    by rewrite get_asr_status_after, (req_gen_status_refused _ _ res).
  - intros v Hv. by rewrite get_asr_status_after, (req_gen_status_served _ _ v).
Qed.


(** C9, as amended: the error branch of [req_gen_firmware] and of
    [req_gen_status] is taken for every status code other than 200, and
    then the result is [None] whatever the body. For a response with
    code 200 whose JSON body lacks the expected ["data"]/["id"] (resp.
    ["data"]/["status"]) keys, both raise instead of returning [None]:
    [KeyError] when an object has not the key, [TypeError] when the
    document or its ["data"] member is not an object. When the keys are
    there the value under them is returned. *)
Theorem adapter_malformed_200_raises data gen_id w :
  (∀ res, status_code res ≠ 200 →
     (gateway P (clock w) (POST (create_url P) data) = Responds res →
        (req_gen_firmware P data w).1 = Val PNone)
     ∧ (gateway P (clock w) (GET (status_url P gen_id)) = Responds res →
        (req_gen_status P gen_id w).1 = Val PNone))
  ∧ (∀ res body, status_code res = 200 → json res = Some body →
     (gateway P (clock w) (POST (create_url P) data) = Responds res →
        ((∀ v, ¬ carries body "id" v) →
           ∃ e, (req_gen_firmware P data w).1 = Exn e ∧
                (e = KeyError "data" ∨ e = KeyError "id" ∨ e = TypeError))
        ∧ (∀ v, carries body "id" v → (req_gen_firmware P data w).1 = Val v))
     ∧ (gateway P (clock w) (GET (status_url P gen_id)) = Responds res →
        ((∀ v, ¬ carries body "status" v) →
           ∃ e, (req_gen_status P gen_id w).1 = Exn e ∧
                (e = KeyError "data" ∨ e = KeyError "status" ∨ e = TypeError))
        ∧ (∀ v, carries body "status" v → (req_gen_status P gen_id w).1 = Val v)))
  ∧ (∀ res d, status_code res = 200 → json res = Some (PDict d) →
     (gateway P (clock w) (POST (create_url P) data) = Responds res →
        (d !! "data" = None →
           (req_gen_firmware P data w).1 = Exn (KeyError "data"))
        ∧ (∀ d', d !! "data" = Some (PDict d') → d' !! "id" = None →
           (req_gen_firmware P data w).1 = Exn (KeyError "id")))
     ∧ (gateway P (clock w) (GET (status_url P gen_id)) = Responds res →
        (d !! "data" = None →
           (req_gen_status P gen_id w).1 = Exn (KeyError "data"))
        ∧ (∀ d', d !! "data" = Some (PDict d') → d' !! "status" = None →
           (req_gen_status P gen_id w).1 = Exn (KeyError "status")))).
Proof.
  split; [|split].
  - intros res Hcode%Z.eqb_neq.
    split; intros Hrp;
      unfold req_gen_firmware, req_gen_status, bind, send; by rewrite Hrp, Hcode.
  - intros res body Hcode Hjson.
    split; intros Hrp; (split; [intros Hlack | intros v (d & d' & -> & Hd & Hk)]);
      unfold req_gen_firmware, req_gen_status, bind, send, res_json, getitem;
      rewrite Hrp, Hcode; simpl; rewrite Hjson; simpl.
    + destruct body as [| | | | | |d]; try by eauto.
      destruct (d !! "data") as [[| | | | | |d']|] eqn:Hd; simpl; try by eauto.
      destruct (d' !! "id") as [v|] eqn:Hk; simpl; [|by eauto].
      destruct (Hlack v). by exists d, d'.
    + rewrite Hd. simpl. by rewrite Hk.
    + destruct body as [| | | | | |d]; try by eauto.
      destruct (d !! "data") as [[| | | | | |d']|] eqn:Hd; simpl; try by eauto.
      destruct (d' !! "status") as [v|] eqn:Hk; simpl; [|by eauto].
      destruct (Hlack v). by exists d, d'.
    + rewrite Hd. simpl. by rewrite Hk.
  - intros res d Hcode Hjson.
    split; intros Hrp; (split; [intros Hd | intros d' Hd Hd']);
      unfold req_gen_firmware, req_gen_status, bind, send, res_json, getitem;
      rewrite Hrp, Hcode; simpl; rewrite Hjson; simpl; rewrite Hd; simpl;
      by rewrite ?Hd'.
Qed.

(** C10: when the gateway answers the download call with a code other
    than 200, [req_download_firmware] returns [None] and leaves every
    file as it was: nothing is opened or written. The files change only
    when the download call was answered with code 200. *)
Theorem req_download_firmware_refused_keeps_files gen_id w :
  (∀ res,
     gateway P (clock w) (GET (download_url P gen_id)) = Responds res →
     status_code res ≠ 200 →
     ∃ w' t,
       req_download_firmware P gen_id w = (Val None, w') ∧
       files w' = files w ∧ trace w' = trace w ++ t ∧ writes t = 0%nat)
  ∧ (∀ r w',
     req_download_firmware P gen_id w = (r, w') →
     files w' ≠ files w →
     ∃ res,
       gateway P (clock w) (GET (download_url P gen_id)) = Responds res ∧
       status_code res = 200).
Proof.
  split.
  - intros res Hrp Hcode. eexists _, _.
    split; [by apply (req_download_firmware_refused _ _ res) |]. done.
  - unfold req_download_firmware, bind, send, log, emit, write_file, ret.
    intros r w' Hrun Hfiles.
    destruct (gateway P (clock w) (GET (download_url P gen_id))) as [res|];
      [|by simplify_eq/=].
    exists res. split; [done |].
    destruct (status_code res =? 200) eqn:Hcode; [by apply Z.eqb_eq |].
    by simplify_eq/=.
Qed.

End Facts.

(** * Concrete runs *)

Lemma serves_status_reply v : serves_status (status_reply v) v.
Proof.
  eexists _, _, _. split; [done |]. split; [done |]. split; [done |].
  split; [apply lookup_singleton_eq | apply lookup_singleton_eq].
Qed.

(** A host whose script starts with the replies for [script] serves it
    to a task started at boot. *)
Lemma gateway_serves_scripted script tail fallback gen_id :
  gateway_serves (host (scripted ((status_reply <$> script) ++ tail) fallback))
    gen_id boot script.
Proof.
  intros k v Hk. simpl. unfold scripted. rewrite Nat.add_0_r.
  rewrite lookup_app_l by (rewrite length_fmap; by eapply lookup_lt_Some).
  rewrite list_lookup_fmap, Hk. simpl. apply serves_status_reply.
Qed.

Lemma gateway_refuses_always code gen_id w :
  code ≠ 200 → gateway_refuses (host (always code)) gen_id w.
Proof. intros Hcode k. by eexists. Qed.

(** C1 (the code departs from the claim): when the create call is
    refused, [post_asr] answers with [id] set to [None], as claimed, but
    it queues [get_firmware] for that [None] all the same; run after the
    response, the task polls the gateway for a job named None. *)
Theorem post_asr_refused_create_queues_poller :
  (post_asr refusing {| wakeKeyword := "hi" |} [] boot).1
  = Val (ResponseModel_of (PDict {[ "id" := PNone ]}), [get_firmware_task PNone])
  ∧ calls (trace (run_task refusing 2 (get_firmware_task PNone) boot).2)
    = [Slept 5; Sent (GET "http://gw/api/v1/firmware/status?prj_name=None");
       Slept 5; Sent (GET "http://gw/api/v1/firmware/status?prj_name=None")].
Proof. split; reflexivity. Qed.

(** C2 at a gateway that serves status 2 at the first poll. *)
Lemma get_firmware_status_dispatch_witness :
  req_gen_status serving_12 abc123
    (advance 0 [Slept 5] (advance 1 (polls 1 (status_url serving_12 abc123)) boot))
  = (Val (PInt 2), advance 2 (polls 2 (status_url serving_12 abc123)) boot)
  ∧ get_firmware serving_12 1 abc123
      (advance 1 (polls 1 (status_url serving_12 abc123)) boot)
    = req_download_firmware serving_12 abc123
        (advance 2 (polls 2 (status_url serving_12 abc123) ++
                    [Logged SUCCESS "生成固件成功: abc123"]) boot).
Proof.
  split; [reflexivity |].
  apply (get_firmware_status_dispatch serving_12 0 abc123
           (advance 1 (polls 1 (status_url serving_12 abc123)) boot)
           (PInt 2)
           (advance 2 (polls 2 (status_url serving_12 abc123)) boot)
           eq_refl).
  reflexivity.
Defined.

(** C3 as stated fails: a run that sees the status 2 once, and ends,
    persists nothing when the gateway refuses the download; it has made
    its one download call and written no file. *)
Lemma get_firmware_refused_download_writes_nothing :
  gateway_serves serving_2_refused abc123 boot [PInt 2]
  ∧ gateway serving_2_refused 1 (GET (download_url serving_2_refused abc123))
    = json_reply 500 PNone
  ∧ (get_firmware serving_2_refused 1 abc123 boot).1 = Val None
  ∧ status_calls serving_2_refused abc123
      (trace (get_firmware serving_2_refused 1 abc123 boot).2) = 1%nat
  ∧ download_calls serving_2_refused abc123
      (trace (get_firmware serving_2_refused 1 abc123 boot).2) = 1%nat
  ∧ writes (trace (get_firmware serving_2_refused 1 abc123 boot).2) = 0%nat
  ∧ files (get_firmware serving_2_refused 1 abc123 boot).2 = ∅.
Proof.
  split; [apply (gateway_serves_scripted [PInt 2] []) |].
  repeat split; reflexivity.
Qed.

(** C3, as amended, at a gateway that serves 1, then 2, then the
    firmware: one download call, one write, of the bytes served. *)
Lemma get_firmware_at_most_one_write_witness :
  Forall in_progress [PInt 1]
  ∧ gateway_serves serving_12 abc123 boot ([PInt 1] ++ [PInt 2])
  ∧ py_eq_int (PInt 2) 2 = true
  ∧ gateway serving_12 (S (length [PInt 1]) + clock boot)
      (GET (download_url serving_12 abc123))
    = bytes_reply 200 one
  ∧ (∃ w' t,
       get_firmware serving_12 (length [PInt 1] + 1) abc123 boot
       = (Val (Some (save_path serving_12 abc123)), w') ∧
       trace w' = trace boot ++ t ∧
       download_calls serving_12 abc123 t = 1%nat ∧ writes t = 1%nat ∧
       List.filter is_write t = [Wrote (save_path serving_12 abc123) one] ∧
       files w' = <[save_path serving_12 abc123 := one]> (files boot))
  ∧ (∃ t,
       trace (get_firmware serving_12 2 abc123 boot).2 = trace boot ++ t ∧
       (writes t ≤ 1)%nat ∧ (download_calls serving_12 abc123 t ≤ 1)%nat).
Proof.
  assert (Hprog : Forall in_progress [PInt 1]) by (by repeat constructor).
  assert (Hgw : gateway_serves serving_12 abc123 boot ([PInt 1] ++ [PInt 2]))
    by apply (gateway_serves_scripted [PInt 1; PInt 2] []).
  destruct (get_firmware_at_most_one_write serving_12 abc123 boot) as [Hany Hscript].
  split; [done |]. split; [done |]. split; [done |]. split; [reflexivity |]. split.
  - destruct (Hscript [PInt 1] (PInt 2) 0%nat Hprog Hgw) as [Hstatus2 _].
    destruct (Hstatus2 eq_refl) as [_ Hdownload].
    destruct (Hdownload {| status_code := 200; text := ""; json := None;
                           content := one |} eq_refl) as [Hsaved _].
    exact (Hsaved eq_refl eq_refl).
  - apply (Hany 2%nat (get_firmware serving_12 2 abc123 boot).1); [|done].
    by destruct (get_firmware serving_12 2 abc123 boot).
Defined.

(** C4 as stated fails: a status query that the gateway refuses with a
    500 does not fail; it answers the success envelope with no data. *)
Lemma get_asr_status_refused_is_no_error :
  gateway refusing (clock boot) (GET (status_url refusing abc123))
  = json_reply 500 PNone
  ∧ (get_asr_status refusing "abc123" boot).1
    = Val {| status := 200; message := "success"; data := PNone |}
  ∧ ¬ ∃ e, (get_asr_status refusing "abc123" boot).1 = Exn e.
Proof.
  split; [reflexivity |]. split; [reflexivity |]. by intros [e He].
Qed.

(** C4, as amended, at a gateway that refuses with a 500. *)
Lemma get_asr_status_fresh_query_witness :
  gateway refusing (clock boot) (GET (status_url refusing (PStr "abc123")))
  = json_reply 500 PNone
  ∧ (500 ≠ 200)
  ∧ (get_asr_status refusing "abc123" boot).1 = Val (ResponseModel_of PNone)
  ∧ (get_asr_status refusing "abc123" (advance 0 [Slept 5] boot)).1
    = (get_asr_status refusing "abc123" boot).1.
Proof.
  destruct (get_asr_status_fresh_query refusing "abc123" boot)
    as (_ & Hsame & _ & Hrefused & _).
  split; [reflexivity |]. split; [done |]. split.
  - by apply (Hrefused _ eq_refl).
  - by apply Hsame.
Defined.

(** C5 as stated fails: when the status call gets no response the loop
    does not retry; the exception ends it at the first poll, fuel left
    or not. *)
Lemma get_firmware_unreachable_ends_loop :
  gateway offline (clock boot) (GET (status_url offline abc123)) = Unreachable
  ∧ get_firmware offline 5 abc123 boot
    = (Exn RequestException, advance 1 (polls 1 (status_url offline abc123)) boot)
  ∧ (get_firmware offline 5 abc123 boot).1 ≠ Spinning.
Proof. split; [reflexivity |]. split; [reflexivity | done]. Qed.

(** C5, as amended, at a gateway that refuses every call with a 500. *)
Lemma get_firmware_refused_status_retries_witness :
  gateway_refuses refusing abc123 boot
  ∧ ∃ t,
      get_firmware refusing 3 abc123 boot = (Spinning, advance 3 t boot) ∧
      status_calls refusing abc123 t = 3%nat ∧
      download_calls refusing abc123 t = 0%nat ∧ writes t = 0%nat.
Proof.
  assert (Hgw : gateway_refuses refusing abc123 boot)
    by (by apply gateway_refuses_always).
  split; [done |].
  destruct (get_firmware_refused_status_retries refusing abc123 boot)
    as (_ & Hforever & _).
  apply (Hforever Hgw 3%nat).
Defined.

(** C6 at a host whose gateway serves 1, 1, 1, 2 and then the firmware. *)
Lemma get_firmware_script_1112_witness :
  gateway_serves serving_1112 abc123 boot [PInt 1; PInt 1; PInt 1; PInt 2]
  ∧ ∃ r w' t,
      get_firmware serving_1112 4 abc123 boot = (r, w') ∧ r ≠ Spinning ∧
      trace w' = trace boot ++ t ∧
      calls t = [Slept 5; Sent (GET (status_url serving_1112 abc123));
                 Slept 5; Sent (GET (status_url serving_1112 abc123));
                 Slept 5; Sent (GET (status_url serving_1112 abc123));
                 Slept 5; Sent (GET (status_url serving_1112 abc123));
                 Sent (GET (download_url serving_1112 abc123))] ∧
      status_calls serving_1112 abc123 t = 4%nat ∧
      download_calls serving_1112 abc123 t = 1%nat.
Proof.
  assert (Hgw : gateway_serves serving_1112 abc123 boot
                  [PInt 1; PInt 1; PInt 1; PInt 2])
    by apply (gateway_serves_scripted [PInt 1; PInt 1; PInt 1; PInt 2] []).
  split; [done |].
  apply (get_firmware_script_1112 serving_1112 abc123 boot 0 Hgw).
Defined.

(** C7 at a host whose gateway serves 1, 3. *)
Lemma get_firmware_script_13_witness :
  gateway_serves serving_13 abc123 boot [PInt 1; PInt 3]
  ∧ ∃ w' t,
      get_firmware serving_13 2 abc123 boot = (Val None, w') ∧
      trace w' = trace boot ++ t ∧ files w' = files boot ∧
      calls t = [Slept 5; Sent (GET (status_url serving_13 abc123));
                 Slept 5; Sent (GET (status_url serving_13 abc123))] ∧
      status_calls serving_13 abc123 t = 2%nat ∧
      download_calls serving_13 abc123 t = 0%nat ∧
      writes t = 0%nat.
Proof.
  assert (Hgw : gateway_serves serving_13 abc123 boot [PInt 1; PInt 3])
    by apply (gateway_serves_scripted [PInt 1; PInt 3] []).
  split; [done |].
  apply (get_firmware_script_13 serving_13 abc123 boot 0 Hgw).
Defined.


(** C9 as stated fails for the 2xx codes other than 200: a 201 whose
    JSON body has none of the keys takes the error branch, and both
    calls return [None] without raising. *)
Lemma adapter_201_without_keys_returns_none :
  gateway created_empty (clock boot) (POST (create_url created_empty) (PDict ∅))
  = json_reply 201 (PDict ∅)
  ∧ (req_gen_firmware created_empty (PDict ∅) boot).1 = Val PNone
  ∧ (req_gen_status created_empty abc123 boot).1 = Val PNone
  ∧ ¬ ∃ e, (req_gen_firmware created_empty (PDict ∅) boot).1 = Exn e.
Proof.
  split; [reflexivity |]. split; [reflexivity |]. split; [reflexivity |].
  by intros [e He].
Qed.

(** C9, as amended, at gateways that answer 200 with an empty JSON
    object, with the document [[]] and with [{"data": null}]: the
    adapters raise [KeyError] for the first and [TypeError] for the other
    two. *)
Lemma adapter_malformed_200_raises_witness :
  gateway ok_empty (clock boot) (POST (create_url ok_empty) (PDict ∅))
  = json_reply 200 (PDict ∅)
  ∧ gateway ok_empty (clock boot) (GET (status_url ok_empty abc123))
    = json_reply 200 (PDict ∅)
  ∧ (∅ : gmap string pyval) !! "data" = None
  ∧ (req_gen_firmware ok_empty (PDict ∅) boot).1 = Exn (KeyError "data")
  ∧ (req_gen_status ok_empty abc123 boot).1 = Exn (KeyError "data")
  ∧ (∀ v, ¬ carries (PList []) "id" v)
  ∧ (∃ e, (req_gen_firmware ok_list (PDict ∅) boot).1 = Exn e ∧
          (e = KeyError "data" ∨ e = KeyError "id" ∨ e = TypeError))
  ∧ (∀ v, ¬ carries (PDict {[ "data" := PNone ]}) "status" v)
  ∧ (∃ e, (req_gen_status ok_null abc123 boot).1 = Exn e ∧
          (e = KeyError "data" ∨ e = KeyError "status" ∨ e = TypeError)).
Proof.
  assert (Hlist : ∀ v, ¬ carries (PList []) "id" v)
    by (by intros v (d & d' & Hbody & _)).
  assert (Hnull : ∀ v, ¬ carries (PDict {[ "data" := PNone ]}) "status" v).
  { intros v (d & d' & [= <-] & Hd & _).
    rewrite lookup_singleton_eq in Hd. discriminate Hd. }
  destruct (adapter_malformed_200_raises ok_empty (PDict ∅) abc123 boot)
    as (_ & _ & Hraises).
  destruct (Hraises
              {| status_code := 200; text := ""; json := Some (PDict ∅);
                 content := [] |} ∅ eq_refl eq_refl) as [Hcreate Hstatus].
  split; [reflexivity |]. split; [reflexivity |]. split; [reflexivity |].
  split; [by apply (Hcreate eq_refl) |].
  split; [by apply (Hstatus eq_refl) |].
  split; [exact Hlist |]. split; [|split; [exact Hnull |]].
  - destruct (adapter_malformed_200_raises ok_list (PDict ∅) abc123 boot)
      as (_ & Hlacks & _).
    destruct (Hlacks
                {| status_code := 200; text := ""; json := Some (PList []);
                   content := [] |} (PList []) eq_refl eq_refl) as [Hcreate' _].
    destruct (Hcreate' eq_refl) as [Hexn _]. exact (Hexn Hlist).
  - destruct (adapter_malformed_200_raises ok_null (PDict ∅) abc123 boot)
      as (_ & Hlacks & _).
    destruct (Hlacks
                {| status_code := 200; text := "";
                   json := Some (PDict {[ "data" := PNone ]}); content := [] |}
                (PDict {[ "data" := PNone ]}) eq_refl eq_refl) as [_ Hstatus'].
    destruct (Hstatus' eq_refl) as [Hexn _]. exact (Hexn Hnull).
Defined.

(** C10 at a gateway that refuses the download with a 500. *)
Lemma req_download_firmware_refused_keeps_files_witness :
  gateway refusing (clock boot) (GET (download_url refusing abc123))
  = json_reply 500 PNone
  ∧ (500 ≠ 200)
  ∧ ∃ w' t,
      req_download_firmware refusing abc123 boot = (Val None, w') ∧
      files w' = files boot ∧ trace w' = trace boot ++ t ∧ writes t = 0%nat.
Proof.
  destruct (req_download_firmware_refused_keeps_files refusing abc123 boot)
    as [Hrefused _].
  split; [reflexivity |]. split; [done |].
  by apply (Hrefused _ eq_refl).
Defined.

(** * More of the firmware workflow *)

Section Workflow.

Context (P : platform).

Implicit Types (w : world) (gen_id : pyval) (fuel : nat).

(** ** The adapter on any reply *)

Lemma req_gen_status_advance gen_id w :
  ∃ t, (req_gen_status P gen_id w).2 = advance 1 t w ∧
       calls t = [Sent (GET (status_url P gen_id))] ∧ writes t = 0%nat ∧
       (req_gen_status P gen_id w).1 ≠ Spinning.
Proof.
  unfold req_gen_status, bind, send, log, emit, res_json, getitem, ret, raise.
  destruct (gateway P (clock w) (GET (status_url P gen_id))) as [res|];
    [|by eexists [_]].
  simpl. destruct (status_code res =? 200); simpl.
  - destruct (json res) as [[| | | | | |d]|]; simpl; try by eexists [_].
    destruct (d !! "data") as [[| | | | | |d']|]; simpl; try by eexists [_].
    destruct (d' !! "status"); by eexists [_].
  - eexists [_; _]. unfold advance; simpl. by rewrite <- app_assoc.
Qed.

Lemma req_download_firmware_unreachable gen_id w :
  gateway P (clock w) (GET (download_url P gen_id)) = Unreachable →
  req_download_firmware P gen_id w
  = (Exn RequestException, advance 1 [Sent (GET (download_url P gen_id))] w).
Proof.
  intros Hrp. unfold req_download_firmware, bind, send. by rewrite Hrp.
Qed.

Lemma req_download_firmware_unwritable gen_id w res :
  gateway P (clock w) (GET (download_url P gen_id)) = Responds res →
  status_code res = 200 →
  writable P (save_path P gen_id) = false →
  req_download_firmware P gen_id w
  = (Exn OSError, advance 1 [Sent (GET (download_url P gen_id))] w).
Proof.
  intros Hrp Hcode Hopen.
  unfold req_download_firmware, bind, send, write_file. rewrite Hrp, Hcode. simpl.
  by rewrite Hopen.
Qed.

(** ** The loop on any gateway *)

Lemma wait_loop_shape fuel gen_id : ∀ w,
  ∃ n t, (n ≤ fuel)%nat ∧
    (wait_loop P fuel gen_id w).2 = advance n t w ∧
    calls t = polls n (status_url P gen_id) ∧ writes t = 0%nat ∧
    ((wait_loop P fuel gen_id w).1 = Spinning → n = fuel).
Proof.
  induction fuel as [|fuel IH]; intros w.
  - exists 0%nat, []. by rewrite advance_nil.
  - rewrite wait_loop_S.
    destruct (req_gen_status_advance gen_id (advance 0 [Slept 5] w))
      as (t1 & Hw1 & Hc1 & Hwr1 & Hr1).
    destruct (req_gen_status P gen_id (advance 0 [Slept 5] w)) as [r1 w1].
    simpl in Hw1, Hr1. subst w1.
    assert (Hc : calls ([Slept 5] ++ t1) = polls 1 (status_url P gen_id))
      by (by rewrite calls_app, Hc1).
    assert (Hwr : writes ([Slept 5] ++ t1) = 0%nat)
      by (by rewrite writes_app, Hwr1).
    destruct r1 as [v|e|]; [| |done].
    + destruct (py_eq_int v 3); [|destruct (py_eq_int v 2)];
        rewrite ?advance_advance; simpl Nat.add.
      * eexists 1%nat, _. split; [lia |]. split; [done |]. rewrite !app_assoc.
        split; [by rewrite calls_app, Hc |].
        split; [by rewrite writes_app, Hwr | done].
      * eexists 1%nat, _. split; [lia |]. split; [done |]. rewrite !app_assoc.
        split; [by rewrite calls_app, Hc |].
        split; [by rewrite writes_app, Hwr | done].
      * destruct (IH (advance 1 ([Slept 5] ++ t1) w))
          as (n & t & Hn & Hw & Hct & Hwt & Hs).
        exists (S n), (([Slept 5] ++ t1) ++ t). rewrite Hw, advance_advance.
        split; [lia |]. split; [done |].
        split; [by rewrite calls_app, Hc, Hct |].
        split; [by rewrite writes_app, Hwr, Hwt |].
        intros Hspin. by rewrite (Hs Hspin).
    + rewrite advance_advance. exists 1%nat, ([Slept 5] ++ t1).
      split; [lia |]. done.
Qed.

(** ** The whole task on any gateway *)

Lemma wait_loop_stalls fuel gen_id : ∀ w,
  gateway_stalls P gen_id w →
  wait_loop P fuel gen_id w
  = (Spinning, advance fuel (polls fuel (status_url P gen_id)) w).
Proof.
  induction fuel as [|fuel IH]; intros w Hgw.
  - simpl. by rewrite advance_nil.
  - destruct (Hgw 0%nat) as (v & Hv & Hprog). simpl in Hv.
    rewrite (wait_loop_waiting P _ _ _ v) by done.
    rewrite IH, advance_advance; [done |].
    intros k. simpl. replace (k + S (clock w))%nat with (S k + clock w)%nat by lia.
    apply Hgw.
Qed.

(** ** The create call on any reply *)

Lemma req_gen_firmware_advance data w :
  ∃ t, (req_gen_firmware P data w).2 = advance 1 t w ∧
       calls t = [Sent (POST (create_url P) data)] ∧ writes t = 0%nat ∧
       (req_gen_firmware P data w).1 ≠ Spinning.
Proof.
  unfold req_gen_firmware, bind, send, log, emit, res_json, getitem, ret, raise.
  destruct (gateway P (clock w) (POST (create_url P) data)) as [res|];
    [|by eexists [_]].
  simpl. destruct (status_code res =? 200); simpl.
  - destruct (json res) as [[| | | | | |d]|]; simpl; try by eexists [_].
    destruct (d !! "data") as [[| | | | | |d']|]; simpl; try by eexists [_].
    destruct (d' !! "id"); by eexists [_].
  - eexists [_; _]. unfold advance; simpl. by rewrite <- app_assoc.
Qed.

Lemma post_asr_after data background_tasks w :
  post_asr P data background_tasks w =
  match req_gen_firmware P (AsrReqData_dict data) w with
  | (Val id, w') =>
      (Val (ResponseModel_of (PDict {[ "id" := id ]}),
            background_tasks ++ [get_firmware_task id]), w')
  | (Exn e, w') => (Exn e, w')
  | (Spinning, w') => (Spinning, w')
  end.
Proof. reflexivity. Qed.


(** ** Properties of the firmware workflow *)

(** X1: a 200 reply whose body cannot be read as the adapters expect
    makes them raise: [JSONDecodeError] when the body is not JSON,
    [TypeError] when the document, or its ["data"] member, is not an
    object. This holds for the create call and for the status call. *)
Theorem adapter_unreadable_200_raises data gen_id w res :
  status_code res = 200 →
  (gateway P (clock w) (POST (create_url P) data) = Responds res →
     (json res = None → (req_gen_firmware P data w).1 = Exn JSONDecodeError)
     ∧ (∀ v, json res = Some v → (∀ d, v ≠ PDict d) →
          (req_gen_firmware P data w).1 = Exn TypeError)
     ∧ (∀ d v, json res = Some (PDict d) → d !! "data" = Some v →
          (∀ d', v ≠ PDict d') →
          (req_gen_firmware P data w).1 = Exn TypeError))
  ∧ (gateway P (clock w) (GET (status_url P gen_id)) = Responds res →
     (json res = None → (req_gen_status P gen_id w).1 = Exn JSONDecodeError)
     ∧ (∀ v, json res = Some v → (∀ d, v ≠ PDict d) →
          (req_gen_status P gen_id w).1 = Exn TypeError)
     ∧ (∀ d v, json res = Some (PDict d) → d !! "data" = Some v →
          (∀ d', v ≠ PDict d') →
          (req_gen_status P gen_id w).1 = Exn TypeError)).
Proof.
  intros Hcode.
  split; intros Hrp; (split; [intros Hjson | split; [intros v Hjson Hv | intros d v Hjson Hd Hv]]);
    unfold req_gen_firmware, req_gen_status, bind, send, res_json, getitem;
    rewrite Hrp, Hcode; simpl; rewrite Hjson; simpl; try done.
  - destruct v; try done. by edestruct Hv.
  - rewrite Hd. simpl. destruct v; try done. by edestruct Hv.
  - destruct v; try done. by edestruct Hv.
  - rewrite Hd. simpl. destruct v; try done. by edestruct Hv.
Qed.

(** X2: whatever the gateway answers, [post_asr] makes exactly one
    call, the POST of the request data to the create URL; it does not
    sleep, poll or write, and it comes back. When it answers, the tasks
    queued before are kept and exactly one is added: [get_firmware] for
    the very id the answer carries. When the create call gets no response
    the handler raises and answers nothing. *)
Theorem post_asr_one_call_one_task data background_tasks w :
  (∃ t, (post_asr P data background_tasks w).2 = advance 1 t w ∧
        calls t = [Sent (POST (create_url P) (AsrReqData_dict data))] ∧
        writes t = 0%nat)
  ∧ (post_asr P data background_tasks w).1 ≠ Spinning
  ∧ (∀ resp tasks,
       (post_asr P data background_tasks w).1 = Val (resp, tasks) →
       ∃ id, resp = ResponseModel_of (PDict {[ "id" := id ]}) ∧
             tasks = background_tasks ++ [get_firmware_task id])
  ∧ (gateway P (clock w) (POST (create_url P) (AsrReqData_dict data)) = Unreachable →
       (post_asr P data background_tasks w).1 = Exn RequestException).
Proof.
  rewrite post_asr_after.
  destruct (req_gen_firmware_advance (AsrReqData_dict data) w)
    as (t & Hw & Hc & Hwr & Hr).
  split; [|split; [|split]].
  - exists t. by destruct (req_gen_firmware P _ w) as [[id|e|] w'].
  - by destruct (req_gen_firmware P _ w) as [[id|e|] w'].
  - intros resp tasks Hrun.
    destruct (req_gen_firmware P _ w) as [[id|e|] w']; [|done..].
    simpl in Hrun. injection Hrun as <- <-. by exists id.
  - intros Hrp. unfold req_gen_firmware, bind, send. by rewrite Hrp.
Qed.

(** X3: on any gateway and for any number of rounds, the calls of
    [get_firmware] are rounds of a 5 second sleep followed by a status
    call, and after them at most one download call, which is then the
    last call of the run. While the task is still waiting it has made one
    status call per round and no download call. *)
Theorem get_firmware_download_comes_last fuel gen_id w :
  ∃ n t, (n ≤ fuel)%nat ∧
    trace (get_firmware P fuel gen_id w).2 = trace w ++ t ∧
    (calls t = polls n (status_url P gen_id) ∨
     calls t = polls n (status_url P gen_id) ++
               [Sent (GET (download_url P gen_id))]) ∧
    status_calls P gen_id t = n ∧
    ((get_firmware P fuel gen_id w).1 = Spinning →
       n = fuel ∧ calls t = polls n (status_url P gen_id)).
Proof.
  rewrite get_firmware_after_loop.
  destruct (wait_loop_shape fuel gen_id w) as (n & t & Hn & Hw & Hc & Hwr & Hs).
  assert (Hst : status_calls P gen_id t = n).
  { unfold status_calls. rewrite <- count_calls by apply is_get_is_call.
    rewrite Hc. apply count_polls_same. }
  destruct (wait_loop P fuel gen_id w) as [r0 w0]. simpl in Hw, Hs. subst w0.
  destruct r0 as [[]|e|].
  - destruct (req_download_firmware P gen_id (advance n t w)) as [r w'] eqn:Hd.
    apply req_download_firmware_frame in Hd as (Hr & t1 & Ht1 & Hc1 & _).
    exists n, (t ++ t1). split; [done |].
    split; [simpl; rewrite Ht1; simpl; by rewrite <- app_assoc |].
    split; [right; by rewrite calls_app, Hc, Hc1 |].
    split; [|done].
    unfold status_calls in *. rewrite count_app, Hst.
    rewrite <- (count_calls _ t1) by apply is_get_is_call. rewrite Hc1.
    unfold count; simpl.
    rewrite (bool_decide_eq_false_2 (download_url P gen_id = status_url P gen_id)).
    + simpl. lia.
    + intros Heq. by apply (status_url_not_download P gen_id gen_id).
  - exists n, t. split; [done |]. split; [done |]. split; [by left |]. done.
  - exists n, t. split; [done |]. split; [done |]. split; [by left |]. done.
  - exists n, t. split; [done |]. split; [done |]. split; [by left |].
    split; [done |]. intros _. split; [by apply Hs | done].
Qed.

(** X4: round trip of a build that succeeds. After any number of
    statuses to wait on and then one equal to 2, when the download is
    answered with code 200 and the path can be written, the task returns
    the path [FIRMWARE_PATH/gen_id.bin], and the files differ from those
    at the start in that path alone, which holds the bytes served. *)
Theorem get_firmware_saves_served_bytes script v gen_id w fuel res :
  Forall in_progress script →
  py_eq_int v 2 = true →
  gateway_serves P gen_id w (script ++ [v]) →
  gateway P (S (length script) + clock w) (GET (download_url P gen_id))
  = Responds res →
  status_code res = 200 →
  writable P (save_path P gen_id) = true →
  ∃ w',
    get_firmware P (length script + S fuel) gen_id w
    = (Val (Some (save_path P gen_id)), w') ∧
    files w' = <[save_path P gen_id := content res]> (files w) ∧
    files w' !! save_path P gen_id = Some (content res) ∧
    clock w' = (S (S (length script)) + clock w)%nat.
Proof.
  intros Hprog H2 Hgw Hrp Hcode Hopen.
  rewrite (get_firmware_script_succeeded P script v) by done.
  eexists. split; [by apply req_download_firmware_saved |].
  simpl. split; [done |]. split; [apply lookup_insert_eq | done].
Qed.

(** X5: a build that succeeds but whose firmware cannot be fetched or
    kept. After the status 2, a download answered with a code other than
    200 makes the task return [None]; a download that gets no response
    makes it raise [RequestException]; a path that cannot be opened makes
    it raise [OSError]. In all three cases every file is as it was. *)
Theorem get_firmware_download_failures script v gen_id w fuel :
  Forall in_progress script →
  py_eq_int v 2 = true →
  gateway_serves P gen_id w (script ++ [v]) →
  (∀ res,
     gateway P (S (length script) + clock w) (GET (download_url P gen_id))
     = Responds res →
     status_code res ≠ 200 →
     ∃ w', get_firmware P (length script + S fuel) gen_id w = (Val None, w') ∧
           files w' = files w)
  ∧ (gateway P (S (length script) + clock w) (GET (download_url P gen_id))
     = Unreachable →
     ∃ w', get_firmware P (length script + S fuel) gen_id w
           = (Exn RequestException, w') ∧
           files w' = files w)
  ∧ (∀ res,
     gateway P (S (length script) + clock w) (GET (download_url P gen_id))
     = Responds res →
     status_code res = 200 →
     writable P (save_path P gen_id) = false →
     ∃ w', get_firmware P (length script + S fuel) gen_id w = (Exn OSError, w') ∧
           files w' = files w).
Proof.
  intros Hprog H2 Hgw.
  rewrite (get_firmware_script_succeeded P script v) by done.
  split; [|split].
  - intros res Hrp Hcode. eexists.
    split; [by apply (req_download_firmware_refused P _ _ res) | done].
  - intros Hrp. eexists.
    split; [by apply req_download_firmware_unreachable | done].
  - intros res Hrp Hcode Hopen. eexists.
    split; [by apply (req_download_firmware_unwritable _ _ res) | done].
Qed.

(** X7: the wait has no limit of its own. Against a gateway that keeps
    answering with a status other than 2 and 3, the task is still waiting
    after any number of rounds; all it has done is sleep and ask, once
    per round. *)
Theorem get_firmware_stalled_never_ends gen_id w :
  gateway_stalls P gen_id w →
  ∀ fuel,
    get_firmware P fuel gen_id w
    = (Spinning, advance fuel (polls fuel (status_url P gen_id)) w).
Proof.
  intros Hgw fuel. by rewrite get_firmware_after_loop, wait_loop_stalls.
Qed.

(** X8: only a number ends the wait. A status served as null, as a
    boolean, as a string (be it "2" or "3"), as a list or as an object is
    neither equal to 2 nor to 3: the task asks again after the next
    sleep. *)
Theorem get_firmware_text_status_waits fuel gen_id w v :
  serves_status (gateway P (clock w) (GET (status_url P gen_id))) v →
  v = PNone ∨ (∃ b, v = PBool b) ∨ (∃ s, v = PStr s) ∨ (∃ l, v = PList l)
    ∨ (∃ d, v = PDict d) →
  get_firmware P (S fuel) gen_id w
  = get_firmware P fuel gen_id (advance 1 (polls 1 (status_url P gen_id)) w).
Proof.
  intros Hv Hkind.
  assert (Hprog : in_progress v).
  { destruct Hkind as [-> | [[[] ->] | [[s ->] | [[l ->] | [d ->]]]]]; by split. }
  by rewrite !get_firmware_after_loop, (wait_loop_waiting P _ _ _ v).
Qed.


(** X11: a path returned by [req_download_firmware] is the path of a
    file it has written: the path is [FIRMWARE_PATH/gen_id.bin], the
    download was answered with code 200, and the file at that path holds
    the bytes of the answer. *)
Theorem req_download_firmware_path_means_written gen_id w path :
  (req_download_firmware P gen_id w).1 = Val (Some path) →
  path = save_path P gen_id ∧
  ∃ res,
    gateway P (clock w) (GET (download_url P gen_id)) = Responds res ∧
    status_code res = 200 ∧
    files (req_download_firmware P gen_id w).2 = <[path := content res]> (files w) ∧
    files (req_download_firmware P gen_id w).2 !! path = Some (content res).
Proof.
  unfold req_download_firmware, bind, send, log, emit, write_file, ret.
  destruct (gateway P (clock w) (GET (download_url P gen_id))) as [res|]; [|done].
  simpl. destruct (status_code res =? 200) eqn:Hcode; simpl; [|done].
  destruct (writable P (save_path P gen_id)); simpl; [|done].
  intros [= <-]. split; [done |]. exists res. apply Z.eqb_eq in Hcode.
  split; [done |]. split; [done |]. split; [done | apply lookup_insert_eq].
Qed.

End Workflow.

(** * The log listing *)

Section LogFacts.

Context (json_loads : string → option pyval).
Context (aily_get_logs : Z → Z → option (list row)).

Implicit Types (item : row) (rows : list row) (w : world).

Lemma log_entry_pure item w :
  (log_entry json_loads item w).2 = w ∧ (log_entry json_loads item w).1 ≠ Spinning.
Proof.
  destruct item as [[item0 item1] item2].
  unfold log_entry, bind, loads, getitem, ret, raise.
  destruct (py_eq_str item2 "image"); [|done].
  destruct item1 as [| | | |s| |]; try done.
  destruct (json_loads s) as [[| | | | | |d]|]; try done.
  by destruct (d !! "url").
Qed.

Lemma log_entry_shows item w e :
  (log_entry json_loads item w).1 = Val e → shows json_loads item e.
Proof.
  destruct item as [[item0 item1] item2].
  unfold shows, entry_of, log_entry, bind, loads, getitem, ret, raise. simpl.
  destruct (py_eq_str item2 "image").
  - destruct item1 as [| | | |s| |]; try done.
    destruct (json_loads s) as [[| | | | | |d]|] eqn:Hs; try done.
    destruct (d !! "url") as [u|] eqn:Hu; [|done].
    simpl. intros [= <-]. exists u. split; [done |]. by exists s, d.
  - simpl. intros [= <-]. by exists item1.
Qed.

Lemma log_entry_text item w :
  py_eq_str item.2 "image" = false →
  log_entry json_loads item w = (Val (entry_of item item.1.2), w).
Proof.
  destruct item as [[item0 item1] item2]. simpl. intros Hi.
  unfold log_entry, entry_of, bind, ret. by rewrite Hi.
Qed.

Lemma log_entry_broken item w :
  py_eq_str item.2 "image" = true →
  (∀ s, item.1.2 = PStr s → json_loads s = None) →
  ∃ e, (log_entry json_loads item w).1 = Exn e.
Proof.
  destruct item as [[item0 item1] item2]. simpl. intros Hi Hbad.
  unfold log_entry, bind, loads, raise. rewrite Hi.
  destruct item1 as [| | | |s| |]; try by eexists.
  rewrite (Hbad s eq_refl). by eexists.
Qed.

Lemma append_entries_cons item rows acc w :
  append_entries json_loads (item :: rows) acc w =
  match log_entry json_loads item w with
  | (Val e, w') => append_entries json_loads rows (acc ++ [e]) w'
  | (Exn x, w') => (Exn x, w')
  | (Spinning, w') => (Spinning, w')
  end.
Proof. reflexivity. Qed.

Lemma append_entries_spec rows : ∀ acc w,
  (append_entries json_loads rows acc w).2 = w ∧
  (append_entries json_loads rows acc w).1 ≠ Spinning ∧
  ∀ l, (append_entries json_loads rows acc w).1 = Val l →
       ∃ es, l = acc ++ es ∧ Forall2 (shows json_loads) rows es.
Proof.
  induction rows as [|item rows IH]; intros acc w.
  - simpl. split; [done |]. split; [done |].
    intros l [= <-]. exists []. by rewrite app_nil_r.
  - rewrite append_entries_cons.
    destruct (log_entry_pure item w) as [Hw Hr].
    pose proof (log_entry_shows item w) as Hs.
    destruct (log_entry json_loads item w) as [[e|x|] w1]; simpl in Hw, Hr, Hs;
      subst w1; [| done | done].
    destruct (IH (acc ++ [e]) w) as (Hw' & Hr' & Hl).
    split; [done |]. split; [done |].
    intros l Hrun. destruct (Hl l Hrun) as (es & -> & Hes).
    exists (e :: es). split; [by rewrite <- app_assoc |].
    constructor; [by apply Hs | done].
Qed.

Lemma append_entries_text rows : ∀ acc w,
  Forall (λ item, py_eq_str item.2 "image" = false) rows →
  append_entries json_loads rows acc w
  = (Val (acc ++ ((λ item, entry_of item item.1.2) <$> rows)), w).
Proof.
  induction rows as [|item rows IH]; intros acc w Htext.
  - simpl. by rewrite app_nil_r.
  - apply Forall_cons in Htext as [Hitem Htext].
    rewrite append_entries_cons, log_entry_text by done.
    rewrite IH by done. by rewrite <- app_assoc.
Qed.

Lemma append_entries_broken rows item : ∀ acc w,
  item ∈ rows →
  py_eq_str item.2 "image" = true →
  (∀ s, item.1.2 = PStr s → json_loads s = None) →
  ∃ e, (append_entries json_loads rows acc w).1 = Exn e.
Proof.
  intros acc w Hin Hi Hbad. revert acc.
  induction rows as [|item' rows IH]; intros acc; [by apply elem_of_nil in Hin |].
  rewrite append_entries_cons.
  destruct (log_entry_pure item' w) as [Hw Hr].
  apply elem_of_cons in Hin as [<- | Hin].
  - destruct (log_entry_broken item w Hi Hbad) as [e He].
    destruct (log_entry json_loads item w) as [[e'|x|] w1]; simpl in *;
      [done | by exists x | done].
  - destruct (log_entry json_loads item' w) as [[e'|x|] w1]; simpl in Hw, Hr;
      subst w1; [by apply IH | by exists x | done].
Qed.

Lemma get_logs_after page perPage w :
  get_logs json_loads aily_get_logs page perPage w =
  match append_entries json_loads (default [] (aily_get_logs page perPage)) [] w with
  | (Val es, w') => (Val (ResponseModel_of (logs_page page perPage es)), w')
  | (Exn x, w') => (Exn x, w')
  | (Spinning, w') => (Spinning, w')
  end.
Proof.
  unfold get_logs, bind, logs_page.
  by destruct (aily_get_logs page perPage) as [[|item rows]|].
Qed.

Lemma entry_of_well_labelled item msg : well_labelled (entry_of item msg).
Proof.
  destruct item as [[item0 item1] item2]. unfold well_labelled, entry_of. simpl.
  eexists _, _, _. split; [done |].
  split; [apply lookup_insert_eq |].
  split; [by destruct (py_eq_str item0 "tool") eqn:Hrole |].
  split.
  - rewrite lookup_insert_ne by done. rewrite lookup_insert_ne by done.
    apply lookup_singleton_eq.
  - by destruct (truthy item2) eqn:Hty.
Qed.

(** X12: the listing shows the rows it was given, one entry per row
    and in the same order. Each entry carries the row's role, the row's
    type and, as message, the row's own message or, for an image row, the
    ["url"] member of the document that message holds. The handler
    changes nothing and always comes back. *)
Theorem get_logs_entries_follow_rows page perPage w :
  (get_logs json_loads aily_get_logs page perPage w).2 = w
  ∧ (get_logs json_loads aily_get_logs page perPage w).1 ≠ Spinning
  ∧ ∀ resp,
      (get_logs json_loads aily_get_logs page perPage w).1 = Val resp →
      ∃ es, resp = ResponseModel_of (logs_page page perPage es) ∧
            Forall2 (shows json_loads) (default [] (aily_get_logs page perPage)) es.
Proof.
  rewrite get_logs_after.
  destruct (append_entries_spec (default [] (aily_get_logs page perPage)) [] w)
    as (Hw & Hr & Hl).
  destruct (append_entries json_loads _ [] w) as [[es|x|] w1]; simpl in *;
    subst w1; (split; [done |]); (split; [done |]); [|done..].
  intros resp [= <-]. destruct (Hl es eq_refl) as (es' & -> & Hes).
  by exists es'.
Qed.

(** X13: no entry of a listing has the role "tool", which is shown as
    "user", and none has an empty type: a row without a type is shown as
    "text". *)
Theorem get_logs_role_and_type page perPage w resp :
  (get_logs json_loads aily_get_logs page perPage w).1 = Val resp →
  ∃ es, resp = ResponseModel_of (logs_page page perPage es) ∧
        length es = length (default [] (aily_get_logs page perPage)) ∧
        Forall well_labelled es.
Proof.
  rewrite get_logs_after.
  destruct (append_entries_spec (default [] (aily_get_logs page perPage)) [] w)
    as (_ & _ & Hl).
  destruct (append_entries json_loads _ [] w) as [[es|x|] w1]; simpl in *; [|done..].
  intros [= <-]. destruct (Hl es eq_refl) as (es' & -> & Hes).
  exists es'. split; [done |]. split; [symmetry; by eapply Forall2_length |].
  clear Hl. induction Hes as [|item e rows es' (msg & -> & _) _ IH]; constructor;
    [apply entry_of_well_labelled | done].
Qed.

(** X14: a listing without image rows is answered whatever the
    messages hold: nothing is parsed, and every message is passed on as
    it is. *)
Theorem get_logs_text_rows_never_raise page perPage w rows :
  aily_get_logs page perPage = Some rows →
  Forall (λ item, py_eq_str item.2 "image" = false) rows →
  get_logs json_loads aily_get_logs page perPage w
  = (Val (ResponseModel_of
            (logs_page page perPage ((λ item, entry_of item item.1.2) <$> rows))),
     w).
Proof.
  intros Hrows Htext. rewrite get_logs_after, Hrows. simpl.
  by rewrite append_entries_text.
Qed.

(** X15: one image row whose message is not a string holding a JSON
    document makes the whole request raise: no page is answered, not
    even the rows before it. *)
Theorem get_logs_bad_image_row_raises page perPage w rows item :
  aily_get_logs page perPage = Some rows →
  item ∈ rows →
  py_eq_str item.2 "image" = true →
  (∀ s, item.1.2 = PStr s → json_loads s = None) →
  ∃ e, (get_logs json_loads aily_get_logs page perPage w).1 = Exn e.
Proof.
  intros Hrows Hin Hi Hbad. rewrite get_logs_after, Hrows. simpl.
  destruct (append_entries_broken rows item [] w Hin Hi Hbad) as [e He].
  destruct (append_entries json_loads rows [] w) as [[es|x|] w1]; simpl in *;
    [done | by exists x | done].
Qed.

End LogFacts.

(** * The model settings *)

Section ModelDataFacts.

Context {St : Type} (aily_ctl : AilyCtl St).

(** A controller that keeps what it is given: a getter returns what the
    setter of the same name stored last, the other setters and [save] do
    not change it. *)
Hypothesis get_set : ∀ f v s, ctl_get aily_ctl f (ctl_set aily_ctl f v s) = v.
Hypothesis get_set_other : ∀ f g v s,
  f ≠ g → ctl_get aily_ctl g (ctl_set aily_ctl f v s) = ctl_get aily_ctl g s.
Hypothesis get_save : ∀ mode f s,
  ctl_get aily_ctl f (ctl_save aily_ctl mode s) = ctl_get aily_ctl f s.

Lemma get_after_set_model_data data s f :
  ctl_get aily_ctl f (set_model_data aily_ctl data s).2 = update_value data f.
Proof.
  unfold set_model_data. cbn [snd]. rewrite get_save.
  destruct f; unfold update_value;
    repeat first [rewrite get_set | rewrite get_set_other by done]; done.
Qed.

(** X16: what is posted is what is read back. With a controller that
    keeps what it is given, [get_model_data] after [set_model_data]
    answers the twelve values of the update, each under its own name,
    whatever was stored before; a value posted as null is stored as
    null. *)
Theorem set_then_get_model_data data s :
  get_model_data aily_ctl (set_model_data aily_ctl data s).2
  = ResponseModel_of (model_data_dict (update_value data))
  ∧ (set_model_data aily_ctl data s).1 = ResponseModel_of PNone.
Proof.
  split; [|done].
  unfold get_model_data. by rewrite !get_after_set_model_data.
Qed.

End ModelDataFacts.

(** * More concrete runs *)


Lemma gateway_stalls_always v gen_id w :
  in_progress v → gateway_stalls (host (scripted [] (status_reply v))) gen_id w.
Proof. intros Hv k. exists v. split; [apply serves_status_reply | done]. Qed.

(** X1 at a gateway that answers 200 with a body that is not JSON. *)
Lemma adapter_unreadable_200_raises_witness :
  gateway ok_text (clock boot) (POST (create_url ok_text) (PDict ∅))
  = bytes_reply 200 []
  ∧ gateway ok_text (clock boot) (GET (status_url ok_text abc123))
    = bytes_reply 200 []
  ∧ (req_gen_firmware ok_text (PDict ∅) boot).1 = Exn JSONDecodeError
  ∧ (req_gen_status ok_text abc123 boot).1 = Exn JSONDecodeError.
Proof.
  destruct (adapter_unreadable_200_raises ok_text (PDict ∅) abc123 boot
              {| status_code := 200; text := ""; json := None; content := [] |}
              eq_refl) as [Hcreate Hstatus].
  split; [reflexivity |]. split; [reflexivity |]. split.
  - destruct (Hcreate eq_refl) as [Hraises _]. by apply Hraises.
  - destruct (Hstatus eq_refl) as [Hraises _]. by apply Hraises.
Defined.

(** X2 at a gateway that is down. *)
Lemma post_asr_one_call_one_task_witness :
  gateway offline (clock boot)
    (POST (create_url offline) (AsrReqData_dict {| wakeKeyword := "hi" |}))
  = Unreachable
  ∧ (post_asr offline {| wakeKeyword := "hi" |} [] boot).1 = Exn RequestException.
Proof.
  destruct (post_asr_one_call_one_task offline {| wakeKeyword := "hi" |} [] boot)
    as (_ & _ & _ & Hdown).
  split; [reflexivity |]. by apply Hdown.
Defined.

(** X4 at a host whose gateway serves 1, then 2, then the firmware. *)
Lemma get_firmware_saves_served_bytes_witness :
  Forall in_progress [PInt 1]
  ∧ gateway_serves serving_12 abc123 boot ([PInt 1] ++ [PInt 2])
  ∧ gateway serving_12 (S (length [PInt 1]) + clock boot)
      (GET (download_url serving_12 abc123))
    = bytes_reply 200 one
  ∧ ∃ w',
      get_firmware serving_12 2 abc123 boot = (Val (Some "/fw/abc123.bin"), w') ∧
      files w' !! "/fw/abc123.bin" = Some one.
Proof.
  assert (Hprog : Forall in_progress [PInt 1]) by (by repeat constructor).
  assert (Hgw : gateway_serves serving_12 abc123 boot ([PInt 1] ++ [PInt 2]))
    by apply (gateway_serves_scripted [PInt 1; PInt 2] []).
  split; [done |]. split; [done |]. split; [reflexivity |].
  destruct (get_firmware_saves_served_bytes serving_12 [PInt 1] (PInt 2) abc123 boot 0
              {| status_code := 200; text := ""; json := None; content := one |}
              Hprog eq_refl Hgw eq_refl eq_refl eq_refl)
    as (w' & Hrun & _ & Hread & _).
  exists w'. split; [exact Hrun | exact Hread].
Defined.

(** X5 at gateways that serve status 2 and then refuse the download,
    or are down for it, and at a host where no path can be written. *)
Lemma get_firmware_download_failures_witness :
  gateway_serves serving_2_refused abc123 boot ([] ++ [PInt 2])
  ∧ gateway_serves serving_2_down abc123 boot ([] ++ [PInt 2])
  ∧ gateway_serves (read_only serving_12) abc123 boot ([PInt 1] ++ [PInt 2])
  ∧ writable (read_only serving_12) (save_path (read_only serving_12) abc123) = false
  ∧ (∃ w', get_firmware serving_2_refused 1 abc123 boot = (Val None, w') ∧
           files w' = files boot)
  ∧ (∃ w', get_firmware serving_2_down 1 abc123 boot = (Exn RequestException, w') ∧
           files w' = files boot)
  ∧ (∃ w', get_firmware (read_only serving_12) 2 abc123 boot = (Exn OSError, w') ∧
           files w' = files boot).
Proof.
  assert (Hgw1 : gateway_serves serving_2_refused abc123 boot ([] ++ [PInt 2]))
    by apply (gateway_serves_scripted [PInt 2] []).
  assert (Hgw2 : gateway_serves serving_2_down abc123 boot ([] ++ [PInt 2]))
    by apply (gateway_serves_scripted [PInt 2] []).
  assert (Hgw3 : gateway_serves (read_only serving_12) abc123 boot
                   ([PInt 1] ++ [PInt 2]))
    by exact (gateway_serves_scripted [PInt 1; PInt 2] [] (bytes_reply 200 one) abc123).
  split; [done |]. split; [done |]. split; [done |]. split; [reflexivity |].
  split; [|split].
  - destruct (get_firmware_download_failures serving_2_refused [] (PInt 2) abc123
                boot 0 (Forall_nil_2 _) eq_refl Hgw1) as (Hrefused & _ & _).
    apply (Hrefused {| status_code := 500; text := ""; json := Some PNone;
                       content := [] |} eq_refl).
    done.
  - destruct (get_firmware_download_failures serving_2_down [] (PInt 2) abc123
                boot 0 (Forall_nil_2 _) eq_refl Hgw2) as (_ & Hdown & _).
    by apply Hdown.
  - assert (Hprog : Forall in_progress [PInt 1]) by (by repeat constructor).
    destruct (get_firmware_download_failures (read_only serving_12) [PInt 1] (PInt 2)
                abc123 boot 0 Hprog eq_refl Hgw3) as (_ & _ & Hclosed).
    by apply (Hclosed {| status_code := 200; text := ""; json := None;
                         content := one |} eq_refl).
Defined.

(** X7 at a gateway that serves the string "2" as status for ever. *)
Lemma get_firmware_stalled_never_ends_witness :
  gateway_stalls stalling abc123 boot
  ∧ get_firmware stalling 3 abc123 boot
    = (Spinning, advance 3 (polls 3 (status_url stalling abc123)) boot).
Proof.
  assert (Hgw : gateway_stalls stalling abc123 boot)
    by (by apply gateway_stalls_always).
  split; [done |].
  apply (get_firmware_stalled_never_ends stalling abc123 boot Hgw 3%nat).
Defined.

(** X8 at the same gateway: the string "2" is not the number 2. *)
Lemma get_firmware_text_status_waits_witness :
  serves_status (gateway stalling (clock boot) (GET (status_url stalling abc123)))
    (PStr "2")
  ∧ get_firmware stalling 1 abc123 boot
    = get_firmware stalling 0 abc123
        (advance 1 (polls 1 (status_url stalling abc123)) boot).
Proof.
  assert (Hv : serves_status
                 (gateway stalling (clock boot) (GET (status_url stalling abc123)))
                 (PStr "2"))
    by apply serves_status_reply.
  split; [done |].
  apply (get_firmware_text_status_waits stalling 0 abc123 boot (PStr "2") Hv).
  right. right. left. by exists "2".
Defined.


(** X12 on a listing with a text row and an image row. *)
Lemma get_logs_entries_follow_rows_witness :
  ∃ es,
    (get_logs loads_one mixed_logs 1 10 boot).1
    = Val (ResponseModel_of (logs_page 1 10 es)) ∧
    Forall2 (shows loads_one)
      [text_row "tool" "hi"; image_row "assistant" "{url}"] es.
Proof.
  destruct (get_logs_entries_follow_rows loads_one mixed_logs 1 10 boot)
    as (_ & _ & Hrows).
  destruct (Hrows _ eq_refl) as (es & Hresp & Hes).
  exists es. split; [|exact Hes].
  exact (f_equal Val Hresp).
Defined.

(** X13 on the same listing. *)
Lemma get_logs_role_and_type_witness :
  ∃ es,
    (get_logs loads_one mixed_logs 1 10 boot).1
    = Val (ResponseModel_of (logs_page 1 10 es)) ∧
    length es = 2%nat ∧ Forall well_labelled es.
Proof.
  destruct (get_logs_role_and_type loads_one mixed_logs 1 10 boot _ eq_refl)
    as (es & Hresp & Hlen & Hes).
  exists es. split; [exact (f_equal Val Hresp) |]. split; [exact Hlen | exact Hes].
Defined.

(** X14 on a listing of two text rows, with a [json.loads] that would
    not read their messages. *)
Lemma get_logs_text_rows_never_raise_witness :
  text_logs 1 10 = Some [text_row "tool" "hi"; text_row "assistant" "yo"]
  ∧ Forall (λ item : row, py_eq_str item.2 "image" = false)
      [text_row "tool" "hi"; text_row "assistant" "yo"]
  ∧ get_logs loads_one text_logs 1 10 boot
    = (Val (ResponseModel_of
              (logs_page 1 10
                 [entry_of (text_row "tool" "hi") (PStr "hi");
                  entry_of (text_row "assistant" "yo") (PStr "yo")])),
       boot).
Proof.
  assert (Htext : Forall (λ item : row, py_eq_str item.2 "image" = false)
                    [text_row "tool" "hi"; text_row "assistant" "yo"])
    by (by repeat constructor).
  split; [reflexivity |]. split; [done |].
  apply (get_logs_text_rows_never_raise loads_one text_logs 1 10 boot _ eq_refl Htext).
Defined.

(** X15 on a listing whose second row is an image row with a message
    that is no JSON document. *)
Lemma get_logs_bad_image_row_raises_witness :
  broken_logs 1 10 = Some [text_row "tool" "hi"; image_row "assistant" "oops"]
  ∧ py_eq_str (image_row "assistant" "oops").2 "image" = true
  ∧ loads_one "oops" = None
  ∧ ∃ e, (get_logs loads_one broken_logs 1 10 boot).1 = Exn e.
Proof.
  split; [reflexivity |]. split; [reflexivity |]. split; [reflexivity |].
  apply (get_logs_bad_image_row_raises loads_one broken_logs 1 10 boot
           [text_row "tool" "hi"; image_row "assistant" "oops"]
           (image_row "assistant" "oops") eq_refl).
  - apply elem_of_cons. right. apply elem_of_cons. by left.
  - reflexivity.
  - intros s [= <-]. reflexivity.
Defined.

(** X16 with a controller that keeps the twelve values in a table. *)
Lemma set_then_get_model_data_witness :
  (∀ f v s, ctl_get table_ctl f (ctl_set table_ctl f v s) = v)
  ∧ get_model_data table_ctl (set_model_data table_ctl sample_update unset).2
    = ResponseModel_of (model_data_dict (update_value sample_update)).
Proof.
  assert (Hsame : ∀ f v s, ctl_get table_ctl f (ctl_set table_ctl f v s) = v).
  { intros f v s. simpl. by destruct (decide (f = f)). }
  assert (Hother : ∀ f g v s, f ≠ g →
            ctl_get table_ctl g (ctl_set table_ctl f v s) = ctl_get table_ctl g s).
  { intros f g v s Hne. simpl. by destruct (decide (g = f)). }
  split; [exact Hsame |].
  apply (set_then_get_model_data table_ctl Hsame Hother (λ _ _ _, eq_refl)
           sample_update unset).
Defined.

(** X11 at a gateway that serves the firmware. *)
Lemma req_download_firmware_path_means_written_witness :
  (req_download_firmware serving_firmware abc123 boot).1 = Val (Some "/fw/abc123.bin")
  ∧ ∃ res,
      gateway serving_firmware (clock boot) (GET (download_url serving_firmware abc123))
      = Responds res ∧
      status_code res = 200 ∧
      files (req_download_firmware serving_firmware abc123 boot).2
      = <["/fw/abc123.bin" := content res]> (files boot) ∧
      files (req_download_firmware serving_firmware abc123 boot).2 !! "/fw/abc123.bin"
      = Some (content res).
Proof.
  split; [reflexivity |].
  destruct (req_download_firmware_path_means_written serving_firmware abc123 boot
              "/fw/abc123.bin" eq_refl) as [_ Hres].
  exact Hres.
Defined.
